(** * The dual-track recommendation store ([useMovieStore]) and its mapper

    A shallow embedding of the zustand store that holds the filter
    selection, the two recommendation tracks and the exclusion list, and
    of [convertV2MovieToMovie] / [postRecommendationsV2] /
    [postReRecommendSingle] from [api/movieApi.ts].

    Conventions.
    - A JavaScript [number] that the store only ever uses as an integer
      (ids, minutes) is a [Z]; the loss of precision beyond 2^53 is not
      modelled.  A [number] that comes out of [Number(...)] on a string is
      an [option Z]: [Some z] when the string is a plain decimal numeral,
      [None] otherwise ([NaN], or a number this model does not track);
      arithmetic on [None] gives [None].
    - An optional field ([runtime?: number]) or a nullable one
      ([string | null]) is an [option].
    - [set({...})] of zustand merges the given fields into the state; it is
      written as a composition of the field setters below.
    - An [async] action is one function from the state at call time and the
      backend to the state after the action has settled, together with the
      list of HTTP calls it issued.  No other action runs in between.
    - A call through the axios instance either resolves with the response
      data or is rejected with an error.  What its response interceptor
      does to the store on a 401 (it logs the user out and resets the
      store) is part of the model; the page redirects it triggers (on 400,
      401, 423 and 500) and the logout event are not. *)

From Stdlib Require Import ZArith List String Ascii Bool Lia QArith DecimalString.
Import ListNotations.

Open Scope string_scope.
Open Scope list_scope.
Open Scope Z_scope.

(** ** JavaScript helpers used by the store *)

(** [Array.prototype.findIndex]: index of the first element satisfying [p],
    or [-1]. *)
Fixpoint findIndex_from {A : Type} (p : A -> bool) (l : list A) (i : Z) : Z :=
  match l with
  | [] => -1
  | x :: r => if p x then i else findIndex_from p r (i + 1)
  end.

Definition findIndex {A : Type} (p : A -> bool) (l : list A) : Z :=
  findIndex_from p l 0.

(** [arr[i]]: [undefined] (here [None]) outside the array, in particular
    at [-1]. *)
Definition at_index {A : Type} (l : list A) (i : Z) : option A :=
  if i <? 0 then None else nth_error l (Z.to_nat i).

(** [arr.splice(start, 0, x)]: insert [x] before position [start]; a start
    beyond the end is clamped to the length, a negative one counts from the
    end. *)
Definition splice_insert {A : Type} (start : Z) (x : A) (l : list A) : list A :=
  let len := Z.of_nat (List.length l) in
  let k := if start <? 0 then Z.max (len + start) 0 else Z.min start len in
  firstn (Z.to_nat k) l ++ x :: skipn (Z.to_nat k) l.

(** [arr.includes(g)] on an array of strings. *)
Definition includes (g : string) (l : list string) : bool :=
  existsb (String.eqb g) l.

(** [str.split(sep)] for a one-character separator. *)
Fixpoint split (sep : ascii) (s : string) : list string :=
  match s with
  | EmptyString => [EmptyString]
  | String c r =>
      if Ascii.eqb c sep then EmptyString :: split sep r
      else match split sep r with
           | [] => [String c EmptyString]
           | h :: t => String c h :: t
           end
  end.

Definition digit_of (c : ascii) : option Z :=
  let n := nat_of_ascii c in
  if (48 <=? n)%nat && (n <=? 57)%nat then Some (Z.of_nat (n - 48)) else None.

Fixpoint Number_from (acc : Z) (s : string) : option Z :=
  match s with
  | EmptyString => Some acc
  | String c r =>
      match digit_of c with
      | Some d => Number_from (10 * acc + d) r
      | None => None
      end
  end.

(** [Number(s)] on the strings a time field holds: a run of decimal digits
    is its value, the empty string is [0]; any other string is [None]
    (JavaScript yields [NaN] for a non-numeric string; numerals with signs,
    blanks, fractions, exponents or a radix prefix are not tracked). *)
Definition Number (s : string) : option Z := Number_from 0 s.

(** [const [hours, minutes] = time.split(':').map(Number);
     hours * 60 + minutes] -- [None] as soon as one of the two is missing
    (then the sum is [NaN]) or is [None]. *)
Definition timeToMinutes (time : string) : option Z :=
  match map Number (split ":"%char time) with
  | Some hours :: Some minutes :: _ => Some (hours * 60 + minutes)
  | _ => None
  end.

(** [x || 0] on an optional number. *)
Definition or0 (x : option Z) : Z :=
  match x with
  | Some z => z
  | None => 0
  end.

(** ** Data model *)

(** Modelled from the spec: the declaration of [RecommendedMovieV2] lives in
    [api/movieApi.type], which is not among the sources; the record has the
    fields [convertV2MovieToMovie] reads from it (the server item of the
    spec: catalog id, title, genre names, release date, rating, poster path,
    overview, runtime minutes). *)
Module V2.
Record t : Type := mk {
  tmdb_id : Z;
  title : string;
  genres : list string;
  release_date : option string;
  vote_average : Q;
  poster_path : option string;
  overview : string;
  runtime : Z
}.
End V2.

(** Modelled from the spec: the declaration of [Movie] lives in
    [api/movieApi.type], which is not among the sources; the record has the
    fields [convertV2MovieToMovie] writes.  [runtime] is optional (the store
    reads it as [m.runtime || 0]). *)
Module Movie.
Record t : Type := mk {
  id : Z;
  tmdb_id : option Z;
  title : string;
  genres : list string;
  year : option Z;
  rating : Q;
  poster : string;
  description : string;
  runtime : option Z;
  popular : bool;
  watched : bool
}.
End Movie.

Module Filters.
Record t : Type := mk {
  time : string;
  genres : list string;
  excludeAdult : bool
}.
End Filters.

(** The data fields of [MovieState]. *)
Record MovieState : Type := mkState {
  filters : Filters.t;
  userId : option Z;
  trackAMovies : list Movie.t;
  trackATotalRuntime : Z;
  trackALabel : string;
  trackBMovies : list Movie.t;
  trackBTotalRuntime : Z;
  trackBLabel : string;
  excludedIds : list Z;
  recommendedMovies : list Movie.t;
  popularMovies : list Movie.t;
  detailMovieId : option Z;
  isLoading : bool;
  error : option string
}.

(** Field setters: [set({ f: v })]. *)
Definition set_filters (v : Filters.t) (s : MovieState) : MovieState :=
  mkState v (userId s) (trackAMovies s) (trackATotalRuntime s) (trackALabel s)
    (trackBMovies s) (trackBTotalRuntime s) (trackBLabel s) (excludedIds s)
    (recommendedMovies s) (popularMovies s) (detailMovieId s) (isLoading s) (error s).

Definition set_userId (v : option Z) (s : MovieState) : MovieState :=
  mkState (filters s) v (trackAMovies s) (trackATotalRuntime s) (trackALabel s)
    (trackBMovies s) (trackBTotalRuntime s) (trackBLabel s) (excludedIds s)
    (recommendedMovies s) (popularMovies s) (detailMovieId s) (isLoading s) (error s).

Definition set_trackAMovies (v : list Movie.t) (s : MovieState) : MovieState :=
  mkState (filters s) (userId s) v (trackATotalRuntime s) (trackALabel s)
    (trackBMovies s) (trackBTotalRuntime s) (trackBLabel s) (excludedIds s)
    (recommendedMovies s) (popularMovies s) (detailMovieId s) (isLoading s) (error s).

Definition set_trackATotalRuntime (v : Z) (s : MovieState) : MovieState :=
  mkState (filters s) (userId s) (trackAMovies s) v (trackALabel s)
    (trackBMovies s) (trackBTotalRuntime s) (trackBLabel s) (excludedIds s)
    (recommendedMovies s) (popularMovies s) (detailMovieId s) (isLoading s) (error s).

Definition set_trackALabel (v : string) (s : MovieState) : MovieState :=
  mkState (filters s) (userId s) (trackAMovies s) (trackATotalRuntime s) v
    (trackBMovies s) (trackBTotalRuntime s) (trackBLabel s) (excludedIds s)
    (recommendedMovies s) (popularMovies s) (detailMovieId s) (isLoading s) (error s).

Definition set_trackBMovies (v : list Movie.t) (s : MovieState) : MovieState :=
  mkState (filters s) (userId s) (trackAMovies s) (trackATotalRuntime s) (trackALabel s)
    v (trackBTotalRuntime s) (trackBLabel s) (excludedIds s)
    (recommendedMovies s) (popularMovies s) (detailMovieId s) (isLoading s) (error s).

Definition set_trackBTotalRuntime (v : Z) (s : MovieState) : MovieState :=
  mkState (filters s) (userId s) (trackAMovies s) (trackATotalRuntime s) (trackALabel s)
    (trackBMovies s) v (trackBLabel s) (excludedIds s)
    (recommendedMovies s) (popularMovies s) (detailMovieId s) (isLoading s) (error s).

Definition set_trackBLabel (v : string) (s : MovieState) : MovieState :=
  mkState (filters s) (userId s) (trackAMovies s) (trackATotalRuntime s) (trackALabel s)
    (trackBMovies s) (trackBTotalRuntime s) v (excludedIds s)
    (recommendedMovies s) (popularMovies s) (detailMovieId s) (isLoading s) (error s).

Definition set_excludedIds (v : list Z) (s : MovieState) : MovieState :=
  mkState (filters s) (userId s) (trackAMovies s) (trackATotalRuntime s) (trackALabel s)
    (trackBMovies s) (trackBTotalRuntime s) (trackBLabel s) v
    (recommendedMovies s) (popularMovies s) (detailMovieId s) (isLoading s) (error s).

Definition set_recommendedMovies (v : list Movie.t) (s : MovieState) : MovieState :=
  mkState (filters s) (userId s) (trackAMovies s) (trackATotalRuntime s) (trackALabel s)
    (trackBMovies s) (trackBTotalRuntime s) (trackBLabel s) (excludedIds s)
    v (popularMovies s) (detailMovieId s) (isLoading s) (error s).

Definition set_popularMovies (v : list Movie.t) (s : MovieState) : MovieState :=
  mkState (filters s) (userId s) (trackAMovies s) (trackATotalRuntime s) (trackALabel s)
    (trackBMovies s) (trackBTotalRuntime s) (trackBLabel s) (excludedIds s)
    (recommendedMovies s) v (detailMovieId s) (isLoading s) (error s).

Definition set_detailMovieId (v : option Z) (s : MovieState) : MovieState :=
  mkState (filters s) (userId s) (trackAMovies s) (trackATotalRuntime s) (trackALabel s)
    (trackBMovies s) (trackBTotalRuntime s) (trackBLabel s) (excludedIds s)
    (recommendedMovies s) (popularMovies s) v (isLoading s) (error s).

Definition set_isLoading (v : bool) (s : MovieState) : MovieState :=
  mkState (filters s) (userId s) (trackAMovies s) (trackATotalRuntime s) (trackALabel s)
    (trackBMovies s) (trackBTotalRuntime s) (trackBLabel s) (excludedIds s)
    (recommendedMovies s) (popularMovies s) (detailMovieId s) v (error s).

Definition set_error (v : option string) (s : MovieState) : MovieState :=
  mkState (filters s) (userId s) (trackAMovies s) (trackATotalRuntime s) (trackALabel s)
    (trackBMovies s) (trackBTotalRuntime s) (trackBLabel s) (excludedIds s)
    (recommendedMovies s) (popularMovies s) (detailMovieId s) (isLoading s) v.

Definition LABEL_A : string := "맞춤 추천".
Definition LABEL_B : string := "다양성 추천".

Definition defaultFilters : Filters.t := Filters.mk "00:00" [] false.

(** The state [create] starts from. *)
Definition initialState : MovieState :=
  mkState defaultFilters None [] 0 LABEL_A [] 0 LABEL_B [] [] [] None false None.

(** ** The backend, as the store sees it *)

(** What the [catch] blocks read from a rejected axios call:
    [error.code] and [error.response?.status]. *)
Record ApiError : Type := mkError {
  code : option string;
  response_status : option Z
}.

Inductive outcome (A : Type) : Type :=
| Resolved (a : A)
| Rejected (e : ApiError).
Arguments Resolved {A} a.
Arguments Rejected {A} e.

(** Body of [POST /api/v2/recommend]. *)
Record RecommendBody : Type := mkBody {
  runtime_limit : option Z;
  body_genres : list string;
  body_exclude_adult : bool
}.

(** One track of [RecommendResponseV2]. *)
Record TrackV2 : Type := mkTrack {
  movies : list V2.t;
  total_runtime : Z;
  label : string
}.

Record RecommendResponseV2 : Type := mkResponse {
  track_a : TrackV2;
  track_b : TrackV2
}.

(** [ReRecommendRequest], the body of [POST /api/v2/recommend/single]. *)
Record ReRecommendRequest : Type := mkRequest {
  target_runtime : option Z;
  excluded_ids : list Z;
  track : string;
  req_genres : list string;
  exclude_adult : bool
}.

Record ReRecommendResponse : Type := mkReResponse {
  success : bool;
  movie : option V2.t;
  message : option string
}.

(** The two endpoints. *)
Record Backend : Type := mkBackend {
  recommend : RecommendBody -> outcome RecommendResponseV2;
  recommend_single : ReRecommendRequest -> outcome ReRecommendResponse
}.

(** The HTTP calls an action issued, in order. *)
Inductive Call : Type :=
| PostRecommend (b : RecommendBody)
| PostRecommendSingle (r : ReRecommendRequest).

Notation "s |> f" := (f s) (at level 45, left associativity, only parsing).

(** [array.reduce((sum, m) => sum + (m.runtime || 0), 0)] *)
Definition sumRuntime (l : list Movie.t) : Z :=
  fold_left (fun sum m => sum + or0 (Movie.runtime m)) l 0.

(** [array.filter(m => m.id !== movieId)] *)
Definition withoutId (movieId : Z) (l : list Movie.t) : list Movie.t :=
  filter (fun m => negb (Movie.id m =? movieId)) l.

(** [s ? f(s) : otherwise] on an optional string: [undefined], [null] and
    the empty string are falsy. *)
Definition if_truthy {A : Type} (o : option string) (f : string -> A) (otherwise : A) : A :=
  match o with
  | Some s => if String.eqb s EmptyString then otherwise else f s
  | None => otherwise
  end.

Definition MSG_GENERIC : string := "영화 추천을 가져오는 중 오류가 발생했습니다".
Definition MSG_NETWORK : string := "서버에 연결할 수 없습니다. 잠시 후 다시 시도해주세요.".
Definition MSG_LOGIN : string := "로그인이 필요합니다. 다시 로그인해주세요.".
Definition MSG_SERVER : string := "서버 오류가 발생했습니다. 잠시 후 다시 시도해주세요.".

(** [error.code === c] *)
Definition code_is (c : string) (e : ApiError) : bool :=
  match code e with
  | Some c' => String.eqb c' c
  | None => false
  end.

(** [error.response?.status === n] *)
Definition status_is (n : Z) (e : ApiError) : bool :=
  match response_status e with
  | Some n' => n' =? n
  | None => false
  end.

(** The message the [catch] block of [loadRecommended] picks. *)
Definition errorMessageOf (e : ApiError) : string :=
  if code_is "ERR_NETWORK" e then MSG_NETWORK
  else if status_is 401 e then MSG_LOGIN
  else if status_is 500 e then MSG_SERVER
  else MSG_GENERIC.

(** ** The mapper and the two API calls ([api/movieApi.ts]) *)

Section Mapper.

(** [new Date(d).getFullYear()]: the calendar year of the date string [d]
    in the browser's time zone. *)
Variable getFullYear : string -> Z.

Definition convertV2MovieToMovie (v2Movie : V2.t) : Movie.t :=
  Movie.mk
    (V2.tmdb_id v2Movie)
    (Some (V2.tmdb_id v2Movie))
    (V2.title v2Movie)
    (V2.genres v2Movie)
    (if_truthy (V2.release_date v2Movie) (fun d => Some (getFullYear d)) None)
    (V2.vote_average v2Movie)
    (if_truthy (V2.poster_path v2Movie)
       (fun p => "https://image.tmdb.org/t/p/w500" ++ p)%string EmptyString)
    (V2.overview v2Movie)
    (Some (V2.runtime v2Movie))
    false
    false.

End Mapper.

(** ** The two store actions the axios instance calls

    [setUserId] and [resetFilters] of [useMovieStore]; they are the same in
    both copies of the store and call no backend.  They stand here because
    the response interceptor below runs them. *)

Definition setUserId (userId : option Z) (s : MovieState) : MovieState :=
  s |> set_userId userId.

Definition resetFilters (s : MovieState) : MovieState :=
  s
  |> set_filters (Filters.mk "00:00" [] false)
  |> set_trackAMovies []
  |> set_trackATotalRuntime 0
  |> set_trackALabel LABEL_A
  |> set_trackBMovies []
  |> set_trackBTotalRuntime 0
  |> set_trackBLabel LABEL_B
  |> set_excludedIds []
  |> set_recommendedMovies []
  |> set_popularMovies [].

(** ** The axios instance ([api/axiosInstance], among the unnamed sources)

    The error handler of the response interceptor, as far as the store is
    concerned: for [error.response?.status === 401] on a request without
    [skipAuth] (no call of [movieApi.ts] sets it) it runs
    [setUserId(null)] and [resetFilters()] on the store and then rejects
    with the same error; every other error is rejected as it is.  The
    [auth:logout] event and the assignments to [window.location.href] are
    not modelled. *)
Definition responseInterceptor (error : ApiError) (s : MovieState) : MovieState :=
  if status_is 401 error then s |> setUserId None |> resetFilters else s.

(** What a call through the instance that settled with [settled] has done
    to the store by the time the caller resumes. *)
Definition axiosInstance_effect {A : Type} (settled : outcome A) (s : MovieState)
  : MovieState :=
  match settled with
  | Resolved _ => s
  | Rejected error => responseInterceptor error s
  end.

(** ** The two recommendation calls ([api/movieApi.ts])

    Each gives the value the awaited call settles with, the HTTP calls it
    issued, and what the call did to the store. *)

(** [postRecommendationsV2]: converts the time and posts the body. *)
Definition postRecommendationsV2 (srv : Backend) (f : Filters.t)
  : outcome RecommendResponseV2 * (list Call * (MovieState -> MovieState)) :=
  let runtimeLimit := timeToMinutes (Filters.time f) in
  let body := mkBody runtimeLimit (Filters.genres f) (Filters.excludeAdult f) in
  (recommend srv body,
   ([PostRecommend body], axiosInstance_effect (recommend srv body))).

(** [postReRecommendSingle]: posts the request as it is. *)
Definition postReRecommendSingle (srv : Backend) (request : ReRecommendRequest)
  : outcome ReRecommendResponse * (list Call * (MovieState -> MovieState)) :=
  (recommend_single srv request,
   ([PostRecommendSingle request], axiosInstance_effect (recommend_single srv request))).

(** ** The store ([useMovieStore], the copy with index-preserving
       replacement) *)

Section Store.

Variable getFullYear : string -> Z.

Local Abbreviation convertV2MovieToMovie := (convertV2MovieToMovie getFullYear).

Definition setTime (time : string) (state : MovieState) : MovieState :=
  state
  |> set_filters (Filters.mk time
                    (Filters.genres (filters state))
                    (Filters.excludeAdult (filters state)))
  |> set_excludedIds [].

Definition toggleGenre (genre : string) (state : MovieState) : MovieState :=
  let gs := Filters.genres (filters state) in
  state
  |> set_filters (Filters.mk (Filters.time (filters state))
                    (if includes genre gs
                     then filter (fun g => negb (String.eqb g genre)) gs
                     else gs ++ [genre])
                    (Filters.excludeAdult (filters state)))
  |> set_excludedIds [].

Definition toggleExcludeAdult (state : MovieState) : MovieState :=
  state
  |> set_filters (Filters.mk (Filters.time (filters state))
                    (Filters.genres (filters state))
                    (negb (Filters.excludeAdult (filters state))))
  |> set_excludedIds [].

Definition loadRecommended (srv : Backend) (s : MovieState) : MovieState * list Call :=
  let filters := filters s in
  let s1 := s |> set_isLoading true |> set_error None in
  let '(res, (calls, onStore)) := postRecommendationsV2 srv filters in
  let s2 := onStore s1 in
  match res with
  | Resolved result =>
      let trackAMovies := map convertV2MovieToMovie (movies (track_a result)) in
      let trackBMovies := map convertV2MovieToMovie (movies (track_b result)) in
      let allMovieIds :=
        map V2.tmdb_id (movies (track_a result))
        ++ map V2.tmdb_id (movies (track_b result)) in
      (s2
       |> set_trackAMovies trackAMovies
       |> set_trackATotalRuntime (total_runtime (track_a result))
       |> set_trackALabel (label (track_a result))
       |> set_trackBMovies trackBMovies
       |> set_trackBTotalRuntime (total_runtime (track_b result))
       |> set_trackBLabel (label (track_b result))
       |> set_excludedIds allMovieIds
       |> set_recommendedMovies trackAMovies
       |> set_popularMovies trackBMovies
       |> set_isLoading false
       |> set_error None,
       calls)
  | Rejected error =>
      let errorMessage := errorMessageOf error in
      (s2
       |> set_error (Some errorMessage)
       |> set_isLoading false
       |> set_trackAMovies []
       |> set_trackBMovies []
       |> set_recommendedMovies []
       |> set_popularMovies [],
       calls)
  end.

(** The callback of the final [set((s) => ...)] of
    [removeRecommendedMovie]; [s] is the store at that moment. *)
Definition removeRecommendedMovie_commit
    (movieId movieIndex remainingRuntime : Z) (newExcludedIds : list Z)
    (newMovie : Movie.t) (s : MovieState) : MovieState :=
  let updatedMovies :=
    splice_insert movieIndex newMovie (withoutId movieId (trackAMovies s)) in
  s
  |> set_trackAMovies updatedMovies
  |> set_recommendedMovies updatedMovies
  |> set_trackATotalRuntime (remainingRuntime + or0 (Movie.runtime newMovie))
  |> set_excludedIds (newExcludedIds ++ [Movie.id newMovie]).

Definition removeRecommendedMovie (srv : Backend) (movieId : Z) (s : MovieState)
  : MovieState * list Call :=
  let state := s in
  let movieIndex := findIndex (fun m => Movie.id m =? movieId) (trackAMovies state) in
  match at_index (trackAMovies state) movieIndex with
  | None => (s, [])
  | Some movieToRemove =>
      if movieIndex =? -1 then (s, [])
      else
        let newTrackAMovies := withoutId movieId (trackAMovies state) in
        let newExcludedIds := excludedIds state ++ [movieId] in
        let userInputTime := timeToMinutes (Filters.time (filters state)) in
        let remainingRuntime := sumRuntime newTrackAMovies in
        let targetRuntime := option_map (fun t => t - remainingRuntime) userInputTime in
        let '(res, (calls, onStore)) :=
          postReRecommendSingle srv
            (mkRequest targetRuntime newExcludedIds "a"
               (Filters.genres (filters state))
               (Filters.excludeAdult (filters state))) in
        match res with
        | Resolved response =>
            match success response, movie response with
            | true, Some v2 =>
                let newMovie := convertV2MovieToMovie v2 in
                (removeRecommendedMovie_commit movieId movieIndex remainingRuntime
                   newExcludedIds newMovie (onStore s),
                 calls)
            | _, _ => (onStore s, calls)
            end
        | Rejected _ => (onStore s, calls)
        end
  end.

(** The callback of the final [set((s) => ...)] of [removePopularMovie]. *)
Definition removePopularMovie_commit
    (movieId movieIndex remainingRuntime : Z) (newExcludedIds : list Z)
    (newMovie : Movie.t) (s : MovieState) : MovieState :=
  let updatedMovies :=
    splice_insert movieIndex newMovie (withoutId movieId (trackBMovies s)) in
  s
  |> set_trackBMovies updatedMovies
  |> set_popularMovies updatedMovies
  |> set_trackBTotalRuntime (remainingRuntime + or0 (Movie.runtime newMovie))
  |> set_excludedIds (newExcludedIds ++ [Movie.id newMovie]).

Definition removePopularMovie (srv : Backend) (movieId : Z) (s : MovieState)
  : MovieState * list Call :=
  let state := s in
  let movieIndex := findIndex (fun m => Movie.id m =? movieId) (trackBMovies state) in
  match at_index (trackBMovies state) movieIndex with
  | None => (s, [])
  | Some movieToRemove =>
      if movieIndex =? -1 then (s, [])
      else
        let newTrackBMovies := withoutId movieId (trackBMovies state) in
        let newExcludedIds := excludedIds state ++ [movieId] in
        let userInputTime := timeToMinutes (Filters.time (filters state)) in
        let remainingRuntime := sumRuntime newTrackBMovies in
        let targetRuntime := option_map (fun t => t - remainingRuntime) userInputTime in
        let '(res, (calls, onStore)) :=
          postReRecommendSingle srv
            (mkRequest targetRuntime newExcludedIds "b"
               (Filters.genres (filters state))
               (Filters.excludeAdult (filters state))) in
        match res with
        | Resolved response =>
            match success response, movie response with
            | true, Some v2 =>
                let newMovie := convertV2MovieToMovie v2 in
                (removePopularMovie_commit movieId movieIndex remainingRuntime
                   newExcludedIds newMovie (onStore s),
                 calls)
            | _, _ => (onStore s, calls)
            end
        | Rejected _ => (onStore s, calls)
        end
  end.

Definition setDetailMovieId (movieId : option Z) (s : MovieState) : MovieState :=
  s |> set_detailMovieId movieId.

End Store.

(** ** The earlier copy of the store

    The sources hold a second copy of [useMovieStore] with the same state
    and the same action names.  Its filter actions keep [excludedIds], its
    [loadRecommended] stores one fixed message on failure and keeps the
    tracks, and its two remove actions take the movie out of the track
    before the call and append the replacement at the end.  The actions
    that are the same in both copies ([setUserId], [setDetailMovieId],
    [resetFilters], the success branch of [loadRecommended]) are written
    out again so that the module is the whole file. *)

Module Earlier.
Section Store.

Variable getFullYear : string -> Z.

Local Abbreviation convertV2MovieToMovie := (convertV2MovieToMovie getFullYear).

Definition setUserId (userId : option Z) (s : MovieState) : MovieState :=
  s |> set_userId userId.

Definition setTime (time : string) (state : MovieState) : MovieState :=
  state
  |> set_filters (Filters.mk time
                    (Filters.genres (filters state))
                    (Filters.excludeAdult (filters state))).

Definition toggleGenre (genre : string) (state : MovieState) : MovieState :=
  let gs := Filters.genres (filters state) in
  state
  |> set_filters (Filters.mk (Filters.time (filters state))
                    (if includes genre gs
                     then filter (fun g => negb (String.eqb g genre)) gs
                     else gs ++ [genre])
                    (Filters.excludeAdult (filters state))).

Definition toggleExcludeAdult (state : MovieState) : MovieState :=
  state
  |> set_filters (Filters.mk (Filters.time (filters state))
                    (Filters.genres (filters state))
                    (negb (Filters.excludeAdult (filters state)))).

Definition loadRecommended (srv : Backend) (s : MovieState) : MovieState * list Call :=
  let filters := filters s in
  let s1 := s |> set_isLoading true |> set_error None in
  let '(res, (calls, onStore)) := postRecommendationsV2 srv filters in
  let s2 := onStore s1 in
  match res with
  | Resolved result =>
      let trackAMovies := map convertV2MovieToMovie (movies (track_a result)) in
      let trackBMovies := map convertV2MovieToMovie (movies (track_b result)) in
      let allMovieIds :=
        map V2.tmdb_id (movies (track_a result))
        ++ map V2.tmdb_id (movies (track_b result)) in
      (s2
       |> set_trackAMovies trackAMovies
       |> set_trackATotalRuntime (total_runtime (track_a result))
       |> set_trackALabel (label (track_a result))
       |> set_trackBMovies trackBMovies
       |> set_trackBTotalRuntime (total_runtime (track_b result))
       |> set_trackBLabel (label (track_b result))
       |> set_excludedIds allMovieIds
       |> set_recommendedMovies trackAMovies
       |> set_popularMovies trackBMovies
       |> set_isLoading false
       |> set_error None,
       calls)
  | Rejected _ =>
      (s2 |> set_error (Some MSG_GENERIC) |> set_isLoading false, calls)
  end.

Definition removeRecommendedMovie (srv : Backend) (movieId : Z) (s : MovieState)
  : MovieState * list Call :=
  let state := s in
  match find (fun m => Movie.id m =? movieId) (trackAMovies state) with
  | None => (s, [])
  | Some movieToRemove =>
      let newTrackAMovies := withoutId movieId (trackAMovies state) in
      let newExcludedIds := excludedIds state ++ [movieId] in
      let userInputTime := timeToMinutes (Filters.time (filters state)) in
      let remainingRuntime := sumRuntime newTrackAMovies in
      let targetRuntime := option_map (fun t => t - remainingRuntime) userInputTime in
      let s1 :=
        s
        |> set_trackAMovies newTrackAMovies
        |> set_recommendedMovies newTrackAMovies
        |> set_excludedIds newExcludedIds in
      let '(res, (calls, onStore)) :=
        postReRecommendSingle srv
          (mkRequest targetRuntime newExcludedIds "a"
             (Filters.genres (filters state))
             (Filters.excludeAdult (filters state))) in
      match res with
      | Resolved response =>
          match success response, movie response with
          | true, Some v2 =>
              let newMovie := convertV2MovieToMovie v2 in
              (onStore s1
               |> set_trackAMovies (trackAMovies (onStore s1) ++ [newMovie])
               |> set_recommendedMovies (trackAMovies (onStore s1) ++ [newMovie])
               |> set_trackATotalRuntime (remainingRuntime + or0 (Movie.runtime newMovie))
               |> set_excludedIds (excludedIds (onStore s1) ++ [Movie.id newMovie]),
               calls)
          | _, _ => (onStore s1, calls)
          end
      | Rejected _ => (onStore s1, calls)
      end
  end.

Definition removePopularMovie (srv : Backend) (movieId : Z) (s : MovieState)
  : MovieState * list Call :=
  let state := s in
  match find (fun m => Movie.id m =? movieId) (trackBMovies state) with
  | None => (s, [])
  | Some movieToRemove =>
      let newTrackBMovies := withoutId movieId (trackBMovies state) in
      let newExcludedIds := excludedIds state ++ [movieId] in
      let userInputTime := timeToMinutes (Filters.time (filters state)) in
      let remainingRuntime := sumRuntime newTrackBMovies in
      let targetRuntime := option_map (fun t => t - remainingRuntime) userInputTime in
      let s1 :=
        s
        |> set_trackBMovies newTrackBMovies
        |> set_popularMovies newTrackBMovies
        |> set_excludedIds newExcludedIds in
      let '(res, (calls, onStore)) :=
        postReRecommendSingle srv
          (mkRequest targetRuntime newExcludedIds "b"
             (Filters.genres (filters state))
             (Filters.excludeAdult (filters state))) in
      match res with
      | Resolved response =>
          match success response, movie response with
          | true, Some v2 =>
              let newMovie := convertV2MovieToMovie v2 in
              (onStore s1
               |> set_trackBMovies (trackBMovies (onStore s1) ++ [newMovie])
               |> set_popularMovies (trackBMovies (onStore s1) ++ [newMovie])
               |> set_trackBTotalRuntime (remainingRuntime + or0 (Movie.runtime newMovie))
               |> set_excludedIds (excludedIds (onStore s1) ++ [Movie.id newMovie]),
               calls)
          | _, _ => (onStore s1, calls)
          end
      | Rejected _ => (onStore s1, calls)
      end
  end.

Definition setDetailMovieId (movieId : option Z) (s : MovieState) : MovieState :=
  s |> set_detailMovieId movieId.

Definition resetFilters (s : MovieState) : MovieState :=
  s
  |> set_filters (Filters.mk "00:00" [] false)
  |> set_trackAMovies []
  |> set_trackATotalRuntime 0
  |> set_trackALabel LABEL_A
  |> set_trackBMovies []
  |> set_trackBTotalRuntime 0
  |> set_trackBLabel LABEL_B
  |> set_excludedIds []
  |> set_recommendedMovies []
  |> set_popularMovies [].

End Store.
End Earlier.

(** ** The store as a transition system *)

Inductive Action : Type :=
| SetUserId (userId : option Z)
| SetTime (time : string)
| ToggleGenre (genre : string)
| ToggleExcludeAdult
| LoadRecommended
| RemoveRecommendedMovie (movieId : Z)
| RemovePopularMovie (movieId : Z)
| SetDetailMovieId (movieId : option Z)
| ResetFilters.

(** One action of the store, run to completion against the backend [srv]. *)
Definition step (getFullYear : string -> Z) (srv : Backend) (a : Action)
    (s : MovieState) : MovieState :=
  match a with
  | SetUserId u => setUserId u s
  | SetTime t => setTime t s
  | ToggleGenre g => toggleGenre g s
  | ToggleExcludeAdult => toggleExcludeAdult s
  | LoadRecommended => fst (loadRecommended getFullYear srv s)
  | RemoveRecommendedMovie movieId => fst (removeRecommendedMovie getFullYear srv movieId s)
  | RemovePopularMovie movieId => fst (removePopularMovie getFullYear srv movieId s)
  | SetDetailMovieId m => setDetailMovieId m s
  | ResetFilters => resetFilters s
  end.

(** A run: each action may meet a different backend behaviour. *)
Fixpoint run (getFullYear : string -> Z) (tr : list (Backend * Action))
    (s : MovieState) : MovieState :=
  match tr with
  | [] => s
  | (srv, a) :: rest => run getFullYear rest (step getFullYear srv a s)
  end.

(** ** Properties the statements below are phrased with *)

(** The replacement a settled single-item call delivers, if any:
    [response.success && response.movie]. *)
Definition replacement (o : outcome ReRecommendResponse) : option V2.t :=
  match o with
  | Resolved r => if success r then movie r else None
  | Rejected _ => None
  end.

Definition ids (l : list Movie.t) : list Z := map Movie.id l.

(** [movieId] sits at index [i] of [l] and nowhere else. *)
Definition only_at (movieId : Z) (i : nat) (l : list Movie.t) : Prop :=
  (exists m, nth_error l i = Some m /\ Movie.id m = movieId) /\
  (forall j m, nth_error l j = Some m -> Movie.id m = movieId -> j = i).

(** Both total-runtime fields agree with the items of their track. *)
Definition runtime_ok (s : MovieState) : Prop :=
  trackATotalRuntime s = sumRuntime (trackAMovies s) /\
  trackBTotalRuntime s = sumRuntime (trackBMovies s).

(** The legacy alias fields mirror the tracks. *)
Definition aliases_mirror (s : MovieState) : Prop :=
  recommendedMovies s = trackAMovies s /\ popularMovies s = trackBMovies s.

(** [replaceItem(track, id)] of the specification: the remove action of
    the named track. *)
Inductive TrackId : Type := TrackA | TrackB.

Definition trackMovies (t : TrackId) (s : MovieState) : list Movie.t :=
  match t with
  | TrackA => trackAMovies s
  | TrackB => trackBMovies s
  end.

Definition trackTotalRuntime (t : TrackId) (s : MovieState) : Z :=
  match t with
  | TrackA => trackATotalRuntime s
  | TrackB => trackBTotalRuntime s
  end.

Definition trackName (t : TrackId) : string :=
  match t with
  | TrackA => "a"
  | TrackB => "b"
  end.

Definition replaceItem (getFullYear : string -> Z) (srv : Backend) (t : TrackId)
    (movieId : Z) (s : MovieState) : MovieState * list Call :=
  match t with
  | TrackA => removeRecommendedMovie getFullYear srv movieId s
  | TrackB => removePopularMovie getFullYear srv movieId s
  end.

(** The post-removal state of a track as the specification describes it
    for a failed replacement: the item is gone, nothing took its place, the
    track is one shorter and the total is the sum of what is left. *)
Definition post_removal (t : TrackId) (movieId : Z) (s s' : MovieState) : Prop :=
  ~ In movieId (ids (trackMovies t s')) /\
  trackMovies t s' = withoutId movieId (trackMovies t s) /\
  (List.length (trackMovies t s') + 1 = List.length (trackMovies t s))%nat /\
  trackTotalRuntime t s' = sumRuntime (trackMovies t s').

(** The sum of the runtimes the server reports for the items of a track. *)
Definition sumRuntimeV2 (l : list V2.t) : Z :=
  fold_left (fun sum m => sum + V2.runtime m) l 0.

(** [s'] differs from [s] at most in [filters] and [excludedIds]. *)
Definition same_outside_filters (s s' : MovieState) : Prop :=
  userId s' = userId s /\
  trackAMovies s' = trackAMovies s /\
  trackATotalRuntime s' = trackATotalRuntime s /\
  trackALabel s' = trackALabel s /\
  trackBMovies s' = trackBMovies s /\
  trackBTotalRuntime s' = trackBTotalRuntime s /\
  trackBLabel s' = trackBLabel s /\
  recommendedMovies s' = recommendedMovies s /\
  popularMovies s' = popularMovies s /\
  detailMovieId s' = detailMovieId s /\
  isLoading s' = isLoading s /\
  error s' = error s.

(** ** Concrete data for the scenarios *)

Definition mkMovie (id : Z) (title : string) (runtime : Z) : Movie.t :=
  Movie.mk id (Some id) title [] None 0%Q EmptyString EmptyString (Some runtime) false false.

Definition mkV2 (id : Z) (title : string) (runtime : Z) : V2.t :=
  V2.mk id title [] None 0%Q None EmptyString runtime.

Definition movieX : Movie.t := mkMovie 1 "X" 90.
Definition movieY : Movie.t := mkMovie 2 "Y" 30.

(** Track A holds [X(90min), Y(30min)], the time budget is 150 minutes. *)
Definition stateXY : MovieState :=
  mkState (Filters.mk "02:30" [] false) None
    [movieX; movieY] 120 LABEL_A [] 0 LABEL_B [1; 2]
    [movieX; movieY] [] None false None.

(** The same with the two tracks exchanged. *)
Definition stateXY_B : MovieState :=
  mkState (Filters.mk "02:30" [] false) None
    [] 0 LABEL_A [movieX; movieY] 120 LABEL_B [1; 2]
    [] [movieX; movieY] None false None.

Definition year2000 : string -> Z := fun _ => 2000.

Definition noRecommendations : RecommendBody -> outcome RecommendResponseV2 :=
  fun _ => Rejected (mkError (Some "ERR_NETWORK") None).

(** A backend whose single-item endpoint answers [{success: false}]. *)
Definition srvNoCandidate : Backend :=
  mkBackend noRecommendations
    (fun _ => Resolved (mkReResponse false None (Some "no candidate"))).

(** A backend whose single-item endpoint is unreachable. *)
Definition srvDown : Backend :=
  mkBackend noRecommendations (fun _ => Rejected (mkError (Some "ERR_NETWORK") None)).

(** A backend that rejects every call with status 401: the session has
    expired. *)
Definition sessionExpired : ApiError := mkError (Some "ERR_BAD_REQUEST") (Some 401).

Definition srvUnauthorized : Backend :=
  mkBackend (fun _ => Rejected sessionExpired) (fun _ => Rejected sessionExpired).

(** A backend whose single-item endpoint delivers movie 9 (60 minutes). *)
Definition srvReplace : Backend :=
  mkBackend noRecommendations
    (fun _ => Resolved (mkReResponse true (Some (mkV2 9 "N" 60)) None)).

(** A backend that loads [X(90), Y(30)] into track A and nothing into
    track B, and that, asked for one item, delivers [X] unless the id of
    [X] is excluded, and movie 9 in that case. *)
Definition responseXY : RecommendResponseV2 :=
  mkResponse (mkTrack [mkV2 1 "X" 90; mkV2 2 "Y" 30] 120 LABEL_A)
             (mkTrack [] 0 LABEL_B).

Definition srvCatalog : Backend :=
  mkBackend (fun _ => Resolved responseXY)
    (fun req =>
       Resolved (mkReResponse true
                   (Some (if existsb (Z.eqb 1) (excluded_ids req)
                          then mkV2 9 "N" 60
                          else mkV2 1 "X" 90))
                   None)).

(** Load, change a genre (which empties the exclusion list), replace [Y]:
    the server, told to exclude only [Y], delivers [X] again. *)
Definition stateDup : MovieState :=
  run year2000
    [(srvCatalog, LoadRecommended);
     (srvCatalog, ToggleGenre "Action");
     (srvCatalog, RemoveRecommendedMovie 2)]
    initialState.

(** A backend answering a load with three items in track A whose runtimes
    add up to 118 and one item in track B, totals as reported. *)
Definition response118 (totalA : Z) : RecommendResponseV2 :=
  mkResponse
    (mkTrack [mkV2 11 "a" 40; mkV2 12 "b" 38; mkV2 13 "c" 40] totalA LABEL_A)
    (mkTrack [mkV2 21 "d" 100] 100 LABEL_B).

Definition srvLoad (totalA : Z) : Backend :=
  mkBackend (fun _ => Resolved (response118 totalA))
    (fun _ => Resolved (mkReResponse false None None)).

(** A backend whose load endpoint fails with the given error. *)
Definition srvLoadFails (e : ApiError) : Backend :=
  mkBackend (fun _ => Rejected e)
    (fun _ => Resolved (mkReResponse false None None)).

(** The request a remove action builds for the track [l] named [trackName]. *)
Definition request_for (trackName : string) (l : list Movie.t) (movieId : Z)
    (s : MovieState) : ReRecommendRequest :=
  mkRequest
    (option_map (fun t => t - sumRuntime (withoutId movieId l))
       (timeToMinutes (Filters.time (filters s))))
    (excludedIds s ++ [movieId])
    trackName
    (Filters.genres (filters s))
    (Filters.excludeAdult (filters s)).

(** ** Further notions for the statements *)

(** Every id shown in one of the two tracks is on the exclusion list. *)
Definition covers (s : MovieState) : Prop :=
  forall x, In x (ids (trackAMovies s) ++ ids (trackBMovies s)) -> In x (excludedIds s).

(** The three actions that edit the filter selection. *)
Definition is_filter_mutation (a : Action) : bool :=
  match a with
  | SetTime _ | ToggleGenre _ | ToggleExcludeAdult => true
  | _ => false
  end.

(** The earlier copy of the store as a transition system. *)
Definition step_earlier (getFullYear : string -> Z) (srv : Backend) (a : Action)
    (s : MovieState) : MovieState :=
  match a with
  | SetUserId u => Earlier.setUserId u s
  | SetTime t => Earlier.setTime t s
  | ToggleGenre g => Earlier.toggleGenre g s
  | ToggleExcludeAdult => Earlier.toggleExcludeAdult s
  | LoadRecommended => fst (Earlier.loadRecommended getFullYear srv s)
  | RemoveRecommendedMovie movieId =>
      fst (Earlier.removeRecommendedMovie getFullYear srv movieId s)
  | RemovePopularMovie movieId =>
      fst (Earlier.removePopularMovie getFullYear srv movieId s)
  | SetDetailMovieId m => Earlier.setDetailMovieId m s
  | ResetFilters => Earlier.resetFilters s
  end.

Fixpoint run_earlier (getFullYear : string -> Z) (tr : list (Backend * Action))
    (s : MovieState) : MovieState :=
  match tr with
  | [] => s
  | (srv, a) :: rest => run_earlier getFullYear rest (step_earlier getFullYear srv a s)
  end.

(** ** Display helpers of the components that read the store *)

(** [`${n}`] for an integer [n]: its decimal numeral, with a minus sign
    when negative (the exponent notation JavaScript switches to from 1e21
    on is not modelled). *)
Definition toString (n : Z) : string :=
  DecimalString.NilZero.string_of_int (Z.to_int n).

(** [formatTime] of [FilterSummary] ([ChatbotPanel.tsx]).  The result is
    [None] when one of the two parts of the time is not a plain decimal
    numeral (the text then shows [NaN], [undefined] or a number this model
    does not track). *)
Definition formatTime (time : string) : option string :=
  match map Number (split ":"%char time) with
  | Some hours :: Some minutes :: _ =>
      Some (if (hours =? 0) && (minutes =? 0) then "제한 없이"
            else if hours =? 0 then (toString minutes ++ "분")%string
            else if minutes =? 0 then (toString hours ++ "시간")%string
            else (toString hours ++ "시간 " ++ toString minutes ++ "분")%string)
  | _ => None
  end.

(** [formatRuntime] of [PopularMoviesSection]: [Math.floor(minutes / 60)]
    is the floor quotient, [minutes % 60] the remainder with the sign of
    [minutes]. *)
Definition formatRuntime (minutes : Z) : string :=
  if minutes =? 0 then EmptyString
  else
    let hours := minutes / 60 in
    let mins := Z.rem minutes 60 in
    if hours =? 0 then (toString mins ++ "분")%string
    else if mins =? 0 then (toString hours ++ "시간")%string
    else (toString hours ++ "시간 " ++ toString mins ++ "분")%string.

(** The object [createEmptyCard(index)] of [PopularList] builds. *)
Record EmptyCard : Type := mkEmptyCard {
  empty_id : Z;
  empty_title : string;
  empty_genres : list string;
  empty_poster : string;
  empty_description : string;
  empty_popular : bool;
  empty_watched : bool;
  empty_isEmpty : bool
}.

Definition createEmptyCard (index : Z) : EmptyCard :=
  mkEmptyCard (-200 - index) EmptyString [] EmptyString
    "인기 영화가 없습니다" true false true.

(** An element of [displayMovies]: a movie of the store, or a placeholder. *)
Inductive DisplayCard : Type :=
| Shown (m : Movie.t)
| Placeholder (c : EmptyCard).

(** [movie.id] of an element of [displayMovies], the React key of its card. *)
Definition card_id (c : DisplayCard) : Z :=
  match c with
  | Shown m => Movie.id m
  | Placeholder e => empty_id e
  end.

(** [movie.isEmpty], falsy on a movie of the store. *)
Definition card_isEmpty (c : DisplayCard) : bool :=
  match c with
  | Shown _ => false
  | Placeholder e => empty_isEmpty e
  end.

(** [while (displayMovies.length < 3) displayMovies.push(
      createEmptyCard(displayMovies.length))], at most [fuel] rounds. *)
Fixpoint fillEmptyCards (fuel : nat) (displayMovies : list DisplayCard)
  : list DisplayCard :=
  match fuel with
  | O => displayMovies
  | S fuel' =>
      if (List.length displayMovies <? 3)%nat
      then fillEmptyCards fuel'
             (displayMovies
              ++ [Placeholder (createEmptyCard (Z.of_nat (List.length displayMovies)))])
      else displayMovies
  end.

(** [displayMovies] of [PopularList]: the movies of track B, filled up to
    three cards.  Three rounds are enough for the loop to stop. *)
Definition displayMovies (popularMovies : list Movie.t) : list DisplayCard :=
  fillEmptyCards 3 (map Shown popularMovies).

(** What [PopularList] hands to the card of one element: the key, the
    [watched] flag, whether the re-recommend button is shown, and the id the
    re-recommend handler passes to [removePopularMovie], if there is a
    handler. *)
Record CardProps : Type := mkCardProps {
  key : Z;
  props_watched : bool;
  showReRecommend : bool;
  onReRecommend : option Z
}.

Definition cardProps (watchedMovieIds : list Z) (c : DisplayCard) : CardProps :=
  mkCardProps
    (card_id c)
    (if card_isEmpty c then false else existsb (Z.eqb (card_id c)) watchedMovieIds)
    (negb (card_isEmpty c))
    (if card_isEmpty c then None else Some (card_id c)).

(** ** The carousel ([MovieCarousel.tsx]) *)

(** [a % b]: [NaN] (here [None]) for [b = 0], else the remainder with the
    sign of [a]. *)
Definition js_rem (a b : Z) : option Z :=
  if b =? 0 then None else Some (Z.rem a b).

(** [goToPrev] and [goToNext]: the index the state updater computes from
    the previous one. *)
Definition goToPrev (totalMovies prev : Z) : option Z :=
  js_rem (prev - 1 + totalMovies) totalMovies.

Definition goToNext (totalMovies prev : Z) : option Z :=
  js_rem (prev + 1) totalMovies.

Inductive Position : Type := center | left_1 | right_1 | hidden.

(** [index === x] for [x] that may be [NaN]. *)
Definition same_index (index : Z) (x : option Z) : bool :=
  match x with
  | Some r => index =? r
  | None => false
  end.

Definition getCardPosition (currentIndex totalMovies index : Z) : Position :=
  if index =? currentIndex then center
  else if same_index index (js_rem (currentIndex - 1 + totalMovies) totalMovies) then left_1
  else if same_index index (js_rem (currentIndex + 1) totalMovies) then right_1
  else hidden.

(** ** The detail call ([getMovieDetail], [api/movieApi.ts]) *)

(** Modelled from the spec: the declarations of [MovieDetail] and
    [OTTPlatform] and the shape of the response of [GET /api/movies/:id]
    live in [api/movieApi.type] and in the backend, which are not among the
    sources; the records have the fields [getMovieDetail] reads and writes.
    A field the function tests with [||] or [? :] is an [option]
    ([undefined] and [null] are [None]); the type of [cast], which is only
    passed on, is a parameter. *)
Module Detail.
Section Types.

Variable CastT : Type.

Record UserStatus : Type := mkUserStatus {
  liked : bool;
  watched : bool;
  bookmarked : bool
}.

Record Info : Type := mkInfo {
  movie_id : Z;
  title : string;
  overview : option string;
  genres : option (list string);
  release_date : option string;
  runtime : option Z;
  vote_average : option Q;
  vote_count : option Z;
  popularity : option Q;
  poster_path : option string;
  backdrop_path : option string;
  director : option string;
  cast : CastT;
  tagline : option string;
  user_status : option UserStatus
}.

Record Ott : Type := mkOtt {
  provider_id : Z;
  provider_name : string;
  url : string
}.

Record Data : Type := mkData {
  info : option Info;
  otts : option (list Ott)
}.

Record OTTPlatform : Type := mkOTTPlatform {
  ott_id : Z;
  ott_name : string;
  ott_logo : string;
  watch_url : string
}.

Record MovieDetail : Type := mkMovieDetail {
  d_movie_id : Z;
  d_title : string;
  d_overview : string;
  d_genres : list string;
  d_release_date : string;
  d_runtime : Z;
  d_vote_average : Q;
  d_vote_count : Z;
  d_popularity : Q;
  d_poster_url : string;
  d_backdrop_url : string;
  d_director : option string;
  d_cast : CastT;
  d_tagline : option string;
  d_ott_providers : list OTTPlatform;
  d_user_status : UserStatus
}.

(** [x || 0] on an optional rational. *)
Definition orQ0 (x : option Q) : Q :=
  match x with
  | Some q => q
  | None => 0%Q
  end.

(** [getMovieDetail]: [get] is the axios call for the given id.  Reading
    [movie.movie_id] of a response without [info] throws a [TypeError],
    which the [catch] block logs and throws again; it carries neither a
    [code] nor a [response]. *)
Definition getMovieDetail (get : Z -> outcome Data) (movieId : Z) : outcome MovieDetail :=
  match get movieId with
  | Resolved data =>
      match info data with
      | None => Rejected (mkError None None)
      | Some movie =>
          let otts := match otts data with Some l => l | None => [] end in
          Resolved
            (mkMovieDetail
               (movie_id movie)
               (title movie)
               (if_truthy (overview movie) (fun s => s) "줄거리 정보가 없습니다.")
               (match genres movie with Some g => g | None => [] end)
               (if_truthy (release_date movie) (fun s => s) "2000-01-01")
               (or0 (runtime movie))
               (orQ0 (vote_average movie))
               (or0 (vote_count movie))
               (orQ0 (popularity movie))
               (if_truthy (poster_path movie)
                  (fun p => "https://image.tmdb.org/t/p/w500" ++ p)%string EmptyString)
               (if_truthy (backdrop_path movie)
                  (fun p => "https://image.tmdb.org/t/p/original" ++ p)%string EmptyString)
               (director movie)
               (cast movie)
               (tagline movie)
               (map (fun ott => mkOTTPlatform (provider_id ott) (provider_name ott)
                                  EmptyString (url ott))
                  otts)
               (match user_status movie with
                | Some u => u
                | None => mkUserStatus false false false
                end))
      end
  | Rejected error => Rejected error
  end.

End Types.
End Detail.

(** ** Further scenario data *)

(** Track A holds [X] twice (the same id), then [Y]. *)
Definition stateTwin : MovieState :=
  mkState (Filters.mk "02:30" [] false) None
    [movieX; movieX; movieY] 210 LABEL_A [] 0 LABEL_B [1; 2]
    [movieX; movieX; movieY] [] None false None.

(** A detail response that carries only an id and a title, and two
    providers. *)
Definition infoBare : Detail.Info unit :=
  Detail.mkInfo unit 550 "Fight Club" None None None None None None None
    (Some "/p.jpg") None None tt None None.

Definition dataBare : Detail.Data unit :=
  Detail.mkData unit (Some infoBare)
    (Some [Detail.mkOtt 8 "Netflix" "https://n"; Detail.mkOtt 97 "Watcha" "https://w"]).

(** * Lemmas on the helpers *)

Lemma fold_runtime_shift (l : list Movie.t) (a : Z) :
  fold_left (fun sum m => sum + or0 (Movie.runtime m)) l a = a + sumRuntime l.
Proof.
  unfold sumRuntime. revert a.
  induction l as [|m l IH]; intros a; simpl.
  - lia.
  - rewrite IH. rewrite (IH (or0 (Movie.runtime m))). lia.
Qed.

Lemma sumRuntime_cons (m : Movie.t) (l : list Movie.t) :
  sumRuntime (m :: l) = or0 (Movie.runtime m) + sumRuntime l.
Proof.
  unfold sumRuntime at 1. simpl. apply fold_runtime_shift.
Qed.

Lemma sumRuntime_app (l1 l2 : list Movie.t) :
  sumRuntime (l1 ++ l2) = sumRuntime l1 + sumRuntime l2.
Proof.
  induction l1 as [|m l1 IH]; simpl.
  - reflexivity.
  - rewrite !sumRuntime_cons, IH. lia.
Qed.

Lemma sumRuntime_splice_insert (k : Z) (x : Movie.t) (l : list Movie.t) :
  sumRuntime (splice_insert k x l) = sumRuntime l + or0 (Movie.runtime x).
Proof.
  unfold splice_insert.
  set (n := Z.to_nat _).
  rewrite sumRuntime_app, sumRuntime_cons.
  rewrite <- (firstn_skipn n l) at 3.
  rewrite sumRuntime_app. lia.
Qed.

Lemma splice_insert_at_length {A : Type} (pre post : list A) (x : A) :
  splice_insert (Z.of_nat (List.length pre)) x (pre ++ post) = pre ++ x :: post.
Proof.
  unfold splice_insert.
  assert (H : (Z.of_nat (List.length pre) <? 0) = false) by (apply Z.ltb_ge; lia).
  rewrite H, length_app, Nat2Z.inj_add, Z.min_l by lia.
  rewrite Nat2Z.id, firstn_app, skipn_app, Nat.sub_diag.
  rewrite firstn_all, skipn_all. simpl. rewrite app_nil_r. reflexivity.
Qed.

Lemma findIndex_from_none {A : Type} (p : A -> bool) (l : list A) (i : Z) :
  (forall x, In x l -> p x = false) -> findIndex_from p l i = -1.
Proof.
  revert i. induction l as [|x l IH]; intros i H; simpl.
  - reflexivity.
  - rewrite (H x) by (left; reflexivity).
    apply IH. intros y Hy. apply H. right. exact Hy.
Qed.

Lemma findIndex_from_split {A : Type} (p : A -> bool) (pre post : list A) (m : A) (i : Z) :
  (forall x, In x pre -> p x = false) -> p m = true ->
  findIndex_from p (pre ++ m :: post) i = i + Z.of_nat (List.length pre).
Proof.
  revert i. induction pre as [|x pre IH]; intros i Hpre Hm; simpl.
  - rewrite Hm. lia.
  - rewrite (Hpre x) by (left; reflexivity).
    rewrite IH; [lia | | exact Hm].
    intros y Hy. apply Hpre. right. exact Hy.
Qed.

(** The first element satisfying [p] splits the list. *)
Lemma first_split {A : Type} (p : A -> bool) (l : list A) :
  (exists x, In x l /\ p x = true) ->
  exists pre m post,
    l = pre ++ m :: post /\ (forall x, In x pre -> p x = false) /\ p m = true.
Proof.
  induction l as [|a l IH]; intros [x [Hin Hx]].
  - destruct Hin.
  - destruct (p a) eqn:Ha.
    + exists [], a, l. repeat split; [intros y []| exact Ha].
    + destruct IH as (pre & m & post & -> & Hpre & Hm).
      * destruct Hin as [->|Hin]; [congruence|]. exists x. split; assumption.
      * exists (a :: pre), m, post. repeat split; [|exact Hm].
        intros y [<-|Hy]; [exact Ha | apply Hpre; exact Hy].
Qed.

Lemma at_index_split {A : Type} (pre post : list A) (m : A) :
  at_index (pre ++ m :: post) (Z.of_nat (List.length pre)) = Some m.
Proof.
  unfold at_index.
  assert (H : (Z.of_nat (List.length pre) <? 0) = false) by (apply Z.ltb_ge; lia).
  rewrite H, Nat2Z.id, nth_error_app2 by lia.
  rewrite Nat.sub_diag. reflexivity.
Qed.

Lemma at_index_minus_one {A : Type} (l : list A) : at_index l (-1) = None.
Proof. reflexivity. Qed.

Lemma withoutId_all (movieId : Z) (l : list Movie.t) :
  (forall x, In x l -> (Movie.id x =? movieId) = false) -> withoutId movieId l = l.
Proof.
  intros H. unfold withoutId.
  induction l as [|a l IH]; simpl.
  - reflexivity.
  - rewrite (H a) by (left; reflexivity). simpl. f_equal.
    apply IH. intros y Hy. apply H. right. exact Hy.
Qed.

Lemma withoutId_app (movieId : Z) (l1 l2 : list Movie.t) :
  withoutId movieId (l1 ++ l2) = withoutId movieId l1 ++ withoutId movieId l2.
Proof. unfold withoutId. apply filter_app. Qed.

Lemma withoutId_not_In (movieId : Z) (l : list Movie.t) :
  ~ In movieId (ids (withoutId movieId l)).
Proof.
  unfold ids, withoutId. intros H.
  apply in_map_iff in H. destruct H as (m & Hid & Hin).
  apply filter_In in Hin. destruct Hin as [_ Hneq].
  apply negb_true_iff, Z.eqb_neq in Hneq. contradiction.
Qed.

Lemma In_ids_exists (movieId : Z) (l : list Movie.t) :
  In movieId (ids l) <-> exists x, In x l /\ (Movie.id x =? movieId) = true.
Proof.
  unfold ids. rewrite in_map_iff. split.
  - intros (x & Hid & Hin). exists x. split; [exact Hin | apply Z.eqb_eq; exact Hid].
  - intros (x & Hin & Hid). exists x. split; [apply Z.eqb_eq; exact Hid | exact Hin].
Qed.

Lemma not_In_ids_all (movieId : Z) (l : list Movie.t) :
  ~ In movieId (ids l) -> forall x, In x l -> (Movie.id x =? movieId) = false.
Proof.
  intros H x Hx. apply Z.eqb_neq. intros Heq. apply H.
  unfold ids. apply in_map_iff. exists x. split; assumption.
Qed.

(** What [findIndex] and the lookup at its result yield for an id that the
    track holds, and for one it does not hold. *)
Lemma lookup_present (movieId : Z) (l : list Movie.t) :
  In movieId (ids l) ->
  exists m, at_index l (findIndex (fun m => Movie.id m =? movieId) l) = Some m /\
            (findIndex (fun m => Movie.id m =? movieId) l =? -1) = false.
Proof.
  intros H. apply In_ids_exists in H.
  destruct (first_split _ _ H) as (pre & m & post & -> & Hpre & Hm).
  exists m. unfold findIndex. rewrite findIndex_from_split by assumption.
  simpl. split; [apply at_index_split | apply Z.eqb_neq; lia].
Qed.

Lemma lookup_absent (movieId : Z) (l : list Movie.t) :
  ~ In movieId (ids l) ->
  at_index l (findIndex (fun m => Movie.id m =? movieId) l) = None.
Proof.
  intros H. unfold findIndex.
  rewrite findIndex_from_none by (apply not_In_ids_all; exact H).
  apply at_index_minus_one.
Qed.

Lemma find_present (movieId : Z) (l : list Movie.t) :
  In movieId (ids l) ->
  exists m, find (fun m => Movie.id m =? movieId) l = Some m.
Proof.
  intros H. apply In_ids_exists in H. destruct H as (x & Hin & Hx).
  destruct (find _ l) eqn:E; [eexists; reflexivity|].
  rewrite (find_none _ _ E x Hin) in Hx. discriminate.
Qed.

Lemma only_at_split (movieId : Z) (i : nat) (l : list Movie.t) :
  only_at movieId i l ->
  exists pre m post,
    l = pre ++ m :: post /\ List.length pre = i /\ Movie.id m = movieId /\
    (forall x, In x pre -> (Movie.id x =? movieId) = false) /\
    (forall x, In x post -> (Movie.id x =? movieId) = false).
Proof.
  intros [(m & Hnth & Hid) Huniq].
  destruct (nth_error_split l i Hnth) as (pre & post & -> & Hlen).
  exists pre, m, post. repeat split; try assumption.
  - intros x Hx. apply Z.eqb_neq. intros Hxid.
    destruct (In_nth_error _ _ Hx) as [j Hj].
    assert (Hlt : (j < List.length pre)%nat)
      by (apply nth_error_Some; rewrite Hj; discriminate).
    assert (j = i) by (apply (Huniq j x); [rewrite nth_error_app1; assumption | exact Hxid]).
    lia.
  - intros x Hx. apply Z.eqb_neq. intros Hxid.
    destruct (In_nth_error _ _ Hx) as [j Hj].
    assert (S (List.length pre + j) = i).
    { apply (Huniq _ x); [|exact Hxid].
      rewrite nth_error_app2 by lia.
      replace (S (List.length pre + j) - List.length pre)%nat with (S j) by lia.
      exact Hj. }
    lia.
Qed.

(** * The response interceptor *)

Lemma responseInterceptor_other (e : ApiError) (s : MovieState) :
  status_is 401 e = false -> responseInterceptor e s = s.
Proof.
  intros H. unfold responseInterceptor. rewrite H. reflexivity.
Qed.

Lemma responseInterceptor_401 (e : ApiError) (s : MovieState) :
  status_is 401 e = true -> responseInterceptor e s = resetFilters (setUserId None s).
Proof.
  intros H. unfold responseInterceptor. rewrite H. reflexivity.
Qed.

(** A call has left the store alone, or it was rejected with a 401 and the
    store has been reset. *)
Lemma axiosInstance_effect_cases {A : Type} (o : outcome A) (s : MovieState) :
  axiosInstance_effect o s = s \/
  (exists e, o = Rejected e /\ status_is 401 e = true /\
             axiosInstance_effect o s = resetFilters (setUserId None s)).
Proof.
  destruct o as [a|e]; [left; reflexivity|]. simpl.
  destruct (status_is 401 e) eqn:E.
  - right. exists e. repeat split; [exact E | apply responseInterceptor_401; exact E].
  - left. apply responseInterceptor_other. exact E.
Qed.

Lemma axiosInstance_effect_not_401 {A : Type} (o : outcome A) (s : MovieState) :
  (forall e, o = Rejected e -> status_is 401 e = false) ->
  axiosInstance_effect o s = s.
Proof.
  intros H. destruct o as [a|e]; [reflexivity|]. simpl.
  apply responseInterceptor_other. apply H. reflexivity.
Qed.

(** What holds of the store and of its reset holds after any call. *)
Lemma axiosInstance_effect_invariant {A : Type} (P : MovieState -> Prop)
    (o : outcome A) (s : MovieState) :
  P s -> P (resetFilters (setUserId None s)) -> P (axiosInstance_effect o s).
Proof.
  intros Hs Hreset.
  destruct (axiosInstance_effect_cases o s) as [->|(e & _ & _ & ->)]; assumption.
Qed.

(** The reset the interceptor performs, field by field. *)
Lemma reset_after_logout (s : MovieState) :
  resetFilters (setUserId None s)
  = mkState defaultFilters None [] 0 LABEL_A [] 0 LABEL_B [] [] []
      (detailMovieId s) (isLoading s) (error s).
Proof. reflexivity. Qed.

(** The two actions the interceptor runs are the same in the earlier copy. *)
Lemma earlier_same_reset (u : option Z) (s : MovieState) :
  Earlier.setUserId u s = setUserId u s /\ Earlier.resetFilters s = resetFilters s.
Proof. split; reflexivity. Qed.

(** * Properties of the store *)

Section Properties.

Variable getFullYear : string -> Z.

Local Abbreviation convertV2MovieToMovie := (convertV2MovieToMovie getFullYear).
Local Abbreviation loadRecommended := (loadRecommended getFullYear).
Local Abbreviation removeRecommendedMovie := (removeRecommendedMovie getFullYear).
Local Abbreviation removePopularMovie := (removePopularMovie getFullYear).
Local Abbreviation step := (step getFullYear).
Local Abbreviation run := (run getFullYear).

(** ** The two remove actions in closed form *)

Lemma removeRecommendedMovie_absent (srv : Backend) (movieId : Z) (s : MovieState) :
  ~ In movieId (ids (trackAMovies s)) ->
  removeRecommendedMovie srv movieId s = (s, []).
Proof.
  intros H. unfold removeRecommendedMovie.
  rewrite (lookup_absent _ _ H). reflexivity.
Qed.

Lemma removePopularMovie_absent (srv : Backend) (movieId : Z) (s : MovieState) :
  ~ In movieId (ids (trackBMovies s)) ->
  removePopularMovie srv movieId s = (s, []).
Proof.
  intros H. unfold removePopularMovie.
  rewrite (lookup_absent _ _ H). reflexivity.
Qed.

Lemma removeRecommendedMovie_present (srv : Backend) (movieId : Z) (s : MovieState) :
  In movieId (ids (trackAMovies s)) ->
  removeRecommendedMovie srv movieId s =
  (match replacement (recommend_single srv (request_for "a" (trackAMovies s) movieId s)) with
   | Some v2 =>
       removeRecommendedMovie_commit movieId
         (findIndex (fun m => Movie.id m =? movieId) (trackAMovies s))
         (sumRuntime (withoutId movieId (trackAMovies s)))
         (excludedIds s ++ [movieId]) (convertV2MovieToMovie v2) s
   | None =>
       axiosInstance_effect
         (recommend_single srv (request_for "a" (trackAMovies s) movieId s)) s
   end,
   [PostRecommendSingle (request_for "a" (trackAMovies s) movieId s)]).
Proof.
  intros H. destruct (lookup_present _ _ H) as (m & Hm & Hidx).
  unfold removeRecommendedMovie. rewrite Hm, Hidx. unfold postReRecommendSingle, request_for, replacement.
  destruct (recommend_single srv _) as [r|e]; [|reflexivity].
  destruct (success r), (movie r); reflexivity.
Qed.

Lemma removePopularMovie_present (srv : Backend) (movieId : Z) (s : MovieState) :
  In movieId (ids (trackBMovies s)) ->
  removePopularMovie srv movieId s =
  (match replacement (recommend_single srv (request_for "b" (trackBMovies s) movieId s)) with
   | Some v2 =>
       removePopularMovie_commit movieId
         (findIndex (fun m => Movie.id m =? movieId) (trackBMovies s))
         (sumRuntime (withoutId movieId (trackBMovies s)))
         (excludedIds s ++ [movieId]) (convertV2MovieToMovie v2) s
   | None =>
       axiosInstance_effect
         (recommend_single srv (request_for "b" (trackBMovies s) movieId s)) s
   end,
   [PostRecommendSingle (request_for "b" (trackBMovies s) movieId s)]).
Proof.
  intros H. destruct (lookup_present _ _ H) as (m & Hm & Hidx).
  unfold removePopularMovie. rewrite Hm, Hidx. unfold postReRecommendSingle, request_for, replacement.
  destruct (recommend_single srv _) as [r|e]; [|reflexivity].
  destruct (success r), (movie r); reflexivity.
Qed.

Local Abbreviation replaceItem := (replaceItem getFullYear).

Lemma replaceItem_present_calls (srv : Backend) (t : TrackId) (movieId : Z) (s : MovieState) :
  In movieId (ids (trackMovies t s)) ->
  snd (replaceItem srv t movieId s) =
  [PostRecommendSingle (request_for (trackName t) (trackMovies t s) movieId s)].
Proof.
  intros H. destruct t; simpl in *.
  - rewrite removeRecommendedMovie_present by exact H. reflexivity.
  - rewrite removePopularMovie_present by exact H. reflexivity.
Qed.

Lemma sumRuntime_convert (l : list V2.t) :
  sumRuntime (map convertV2MovieToMovie l) = sumRuntimeV2 l.
Proof.
  unfold sumRuntime, sumRuntimeV2. generalize 0.
  induction l as [|m l IH]; intros a; simpl.
  - reflexivity.
  - apply IH.
Qed.

Lemma ids_convert (l : list V2.t) :
  ids (map convertV2MovieToMovie l) = map V2.tmdb_id l.
Proof.
  unfold ids. rewrite map_map. reflexivity.
Qed.

Lemma includes_In (g : string) (l : list string) :
  includes g l = true <-> In g l.
Proof.
  unfold includes. rewrite existsb_exists. split.
  - intros (x & Hin & Heq). apply String.eqb_eq in Heq. subst. exact Hin.
  - intros Hin. exists g. split; [exact Hin | apply String.eqb_refl].
Qed.

(** ** Failed replacement *)

(** C1, as the code has it: when the id is in the track and the single-item
    call brings no replacement (the server answers [success: false] or
    sends no movie, or the call is rejected), exactly one call was issued
    and the action itself writes nothing.  Unless the call was rejected with
    status 401, the whole state is what it was before the action: the item
    is still in the track, nothing is inserted, the track keeps its length
    and its total-runtime field.  When the call was rejected with status
    401, the response interceptor has logged the user out and reset the
    store: the state is the reset of the state before with [userId]
    cleared, so the track is empty, its total is 0 and [excludedIds] is
    empty. *)
Theorem replace_failure_keeps_state
    (srv : Backend) (t : TrackId) (movieId : Z) (s : MovieState) :
  In movieId (ids (trackMovies t s)) ->
  (forall req, In (PostRecommendSingle req) (snd (replaceItem srv t movieId s)) ->
               replacement (recommend_single srv req) = None) ->
  snd (replaceItem srv t movieId s)
  = [PostRecommendSingle (request_for (trackName t) (trackMovies t s) movieId s)] /\
  ((forall e,
       recommend_single srv (request_for (trackName t) (trackMovies t s) movieId s)
       = Rejected e -> status_is 401 e = false) ->
   fst (replaceItem srv t movieId s) = s /\
   In movieId (ids (trackMovies t (fst (replaceItem srv t movieId s)))) /\
   List.length (trackMovies t (fst (replaceItem srv t movieId s)))
   = List.length (trackMovies t s) /\
   trackTotalRuntime t (fst (replaceItem srv t movieId s)) = trackTotalRuntime t s /\
   excludedIds (fst (replaceItem srv t movieId s)) = excludedIds s) /\
  (forall e,
      recommend_single srv (request_for (trackName t) (trackMovies t s) movieId s)
      = Rejected e -> status_is 401 e = true ->
      fst (replaceItem srv t movieId s) = resetFilters (setUserId None s) /\
      trackMovies t (fst (replaceItem srv t movieId s)) = [] /\
      trackTotalRuntime t (fst (replaceItem srv t movieId s)) = 0 /\
      excludedIds (fst (replaceItem srv t movieId s)) = [] /\
      userId (fst (replaceItem srv t movieId s)) = None).
Proof.
  intros Hin Hfail.
  assert (Hcalls := replaceItem_present_calls srv t movieId s Hin).
  assert (Hnone : replacement
            (recommend_single srv (request_for (trackName t) (trackMovies t s) movieId s))
          = None).
  { apply Hfail. rewrite Hcalls. left. reflexivity. }
  assert (Hfst : fst (replaceItem srv t movieId s)
                 = axiosInstance_effect
                     (recommend_single srv
                        (request_for (trackName t) (trackMovies t s) movieId s)) s).
  { destruct t; cbn [replaceItem trackMovies trackName] in *.
    - rewrite removeRecommendedMovie_present by exact Hin. rewrite Hnone. reflexivity.
    - rewrite removePopularMovie_present by exact Hin. rewrite Hnone. reflexivity. }
  split; [exact Hcalls|]. split.
  - intros Hother. rewrite Hfst, (axiosInstance_effect_not_401 _ _ Hother).
    repeat split; try reflexivity. exact Hin.
  - intros e Hrej H401. rewrite Hfst, Hrej. cbn [axiosInstance_effect].
    rewrite (responseInterceptor_401 _ _ H401).
    destruct t; repeat split.
Qed.

(** ** Failed load *)

(** The failed load of this copy of the store (lines 214-239): when the
    load call is rejected, [isLoading] is false afterwards, [error] holds
    the message picked from the failure ([ERR_NETWORK], else status 401,
    else status 500, else the generic one), and both tracks (and their
    aliases) are empty.  This holds after a 401 too, where the response
    interceptor has reset the store before the message is stored. *)
Lemma loadRecommended_failure (srv : Backend) (s : MovieState) (e : ApiError) :
  fst (postRecommendationsV2 srv (filters s)) = Rejected e ->
  isLoading (fst (loadRecommended srv s)) = false /\
  error (fst (loadRecommended srv s)) = Some (errorMessageOf e) /\
  trackAMovies (fst (loadRecommended srv s)) = [] /\
  trackBMovies (fst (loadRecommended srv s)) = [] /\
  recommendedMovies (fst (loadRecommended srv s)) = [] /\
  popularMovies (fst (loadRecommended srv s)) = [] /\
  (code e = Some "ERR_NETWORK" -> errorMessageOf e = MSG_NETWORK) /\
  (code e <> Some "ERR_NETWORK" -> response_status e = Some 401 ->
   errorMessageOf e = MSG_LOGIN) /\
  (code e <> Some "ERR_NETWORK" -> response_status e = Some 500 ->
   errorMessageOf e = MSG_SERVER) /\
  (code e <> Some "ERR_NETWORK" -> response_status e <> Some 401 ->
   response_status e <> Some 500 -> errorMessageOf e = MSG_GENERIC).
Proof.
  intros Hrej. unfold loadRecommended.
  unfold postRecommendationsV2 in *. simpl in Hrej. rewrite Hrej. simpl.
  repeat split.
  - intros Hc. unfold errorMessageOf, code_is. rewrite Hc. reflexivity.
  - intros Hc Hs. unfold errorMessageOf, code_is, status_is. rewrite Hs.
    destruct (code e) as [c|]; [|reflexivity].
    destruct (String.eqb_spec c "ERR_NETWORK"); [subst; contradiction | reflexivity].
  - intros Hc Hs. unfold errorMessageOf, code_is, status_is. rewrite Hs.
    destruct (code e) as [c|]; [|reflexivity].
    destruct (String.eqb_spec c "ERR_NETWORK"); [subst; contradiction | reflexivity].
  - intros Hc H401 H500. unfold errorMessageOf, code_is, status_is.
    assert (Hcode : match code e with Some c' => String.eqb c' "ERR_NETWORK" | None => false end = false).
    { destruct (code e) as [c|]; [|reflexivity].
      destruct (String.eqb_spec c "ERR_NETWORK"); [subst; contradiction | reflexivity]. }
    rewrite Hcode.
    destruct (response_status e) as [n|]; [|reflexivity].
    destruct (Z.eqb_spec n 401); [subst; contradiction|].
    destruct (Z.eqb_spec n 500); [subst; contradiction|].
    reflexivity.
Qed.

(** The four messages differ, so the stored message tells the kinds apart. *)
Lemma messages_distinct :
  MSG_NETWORK <> MSG_LOGIN /\ MSG_NETWORK <> MSG_SERVER /\ MSG_NETWORK <> MSG_GENERIC /\
  MSG_LOGIN <> MSG_SERVER /\ MSG_LOGIN <> MSG_GENERIC /\ MSG_SERVER <> MSG_GENERIC.
Proof.
  repeat split; intros H; apply String.eqb_eq in H; vm_compute in H; discriminate.
Qed.

(** ** Total runtime *)

Lemma loadRecommended_success (srv : Backend) (s : MovieState) (result : RecommendResponseV2) :
  fst (postRecommendationsV2 srv (filters s)) = Resolved result ->
  fst (loadRecommended srv s) =
  mkState (filters s) (userId s)
    (map convertV2MovieToMovie (movies (track_a result)))
    (total_runtime (track_a result)) (label (track_a result))
    (map convertV2MovieToMovie (movies (track_b result)))
    (total_runtime (track_b result)) (label (track_b result))
    (map V2.tmdb_id (movies (track_a result)) ++ map V2.tmdb_id (movies (track_b result)))
    (map convertV2MovieToMovie (movies (track_a result)))
    (map convertV2MovieToMovie (movies (track_b result)))
    (detailMovieId s) false None.
Proof.
  intros Hres. unfold loadRecommended.
  unfold postRecommendationsV2 in *. simpl in Hres. rewrite Hres. reflexivity.
Qed.

(** A successful replacement leaves the replaced track with a total that is
    the sum of its items, whatever the total was before. *)
Lemma commit_total_A (movieId movieIndex : Z) (newExcludedIds : list Z)
    (newMovie : Movie.t) (s : MovieState) :
  trackATotalRuntime
    (removeRecommendedMovie_commit movieId movieIndex
       (sumRuntime (withoutId movieId (trackAMovies s))) newExcludedIds newMovie s)
  = sumRuntime
      (trackAMovies
         (removeRecommendedMovie_commit movieId movieIndex
            (sumRuntime (withoutId movieId (trackAMovies s))) newExcludedIds newMovie s)).
Proof.
  unfold removeRecommendedMovie_commit. simpl.
  rewrite sumRuntime_splice_insert. reflexivity.
Qed.

Lemma commit_total_B (movieId movieIndex : Z) (newExcludedIds : list Z)
    (newMovie : Movie.t) (s : MovieState) :
  trackBTotalRuntime
    (removePopularMovie_commit movieId movieIndex
       (sumRuntime (withoutId movieId (trackBMovies s))) newExcludedIds newMovie s)
  = sumRuntime
      (trackBMovies
         (removePopularMovie_commit movieId movieIndex
            (sumRuntime (withoutId movieId (trackBMovies s))) newExcludedIds newMovie s)).
Proof.
  unfold removePopularMovie_commit. simpl.
  rewrite sumRuntime_splice_insert. reflexivity.
Qed.

Lemma runtime_ok_removeRecommendedMovie (srv : Backend) (movieId : Z) (s : MovieState) :
  runtime_ok s -> runtime_ok (fst (removeRecommendedMovie srv movieId s)).
Proof.
  intros [HA HB].
  destruct (in_dec Z.eq_dec movieId (ids (trackAMovies s))) as [Hin|Hout].
  - rewrite removeRecommendedMovie_present by exact Hin. cbn [fst].
    destruct (replacement _) as [v2|].
    + split; [apply commit_total_A | exact HB].
    + apply axiosInstance_effect_invariant; split; assumption || reflexivity.
  - rewrite removeRecommendedMovie_absent by exact Hout. split; assumption.
Qed.

Lemma runtime_ok_removePopularMovie (srv : Backend) (movieId : Z) (s : MovieState) :
  runtime_ok s -> runtime_ok (fst (removePopularMovie srv movieId s)).
Proof.
  intros [HA HB].
  destruct (in_dec Z.eq_dec movieId (ids (trackBMovies s))) as [Hin|Hout].
  - rewrite removePopularMovie_present by exact Hin. cbn [fst].
    destruct (replacement _) as [v2|].
    + split; [exact HA | apply commit_total_B].
    + apply axiosInstance_effect_invariant; split; assumption || reflexivity.
  - rewrite removePopularMovie_absent by exact Hout. split; assumption.
Qed.

(** C3, as the code has it: a successful load stores the totals the server
    reported, so the total-runtime fields agree with the item runtimes
    exactly when the reported totals do; every action other than a load
    keeps the agreement, a replacement that succeeds sets the total of its
    track to the sum of its items, and a reset establishes the agreement. *)
Theorem total_runtime_after_actions (srv : Backend) (s : MovieState) :
  (forall result,
      fst (postRecommendationsV2 srv (filters s)) = Resolved result ->
      trackATotalRuntime (fst (loadRecommended srv s)) = total_runtime (track_a result) /\
      trackBTotalRuntime (fst (loadRecommended srv s)) = total_runtime (track_b result) /\
      (runtime_ok (fst (loadRecommended srv s)) <->
       total_runtime (track_a result) = sumRuntimeV2 (movies (track_a result)) /\
       total_runtime (track_b result) = sumRuntimeV2 (movies (track_b result)))) /\
  (forall a, a <> LoadRecommended -> runtime_ok s -> runtime_ok (step srv a s)) /\
  (forall t movieId v2,
      In movieId (ids (trackMovies t s)) ->
      replacement (recommend_single srv (request_for (trackName t) (trackMovies t s) movieId s))
      = Some v2 ->
      trackTotalRuntime t (fst (replaceItem srv t movieId s))
      = sumRuntime (trackMovies t (fst (replaceItem srv t movieId s)))) /\
  runtime_ok (resetFilters s).
Proof.
  split; [|split; [|split]].
  - intros result Hres. rewrite (loadRecommended_success srv s result Hres).
    unfold runtime_ok. simpl. rewrite !sumRuntime_convert.
    split; [reflexivity | split; [reflexivity | tauto]].
  - intros a Ha Hok. destruct a; simpl; try exact Hok.
    + contradiction.
    + apply runtime_ok_removeRecommendedMovie. exact Hok.
    + apply runtime_ok_removePopularMovie. exact Hok.
    + split; reflexivity.
  - intros t movieId v2 Hin Hrep. destruct t; simpl in *.
    + rewrite removeRecommendedMovie_present by exact Hin. rewrite Hrep.
      cbn [fst]. apply commit_total_A.
    + rewrite removePopularMovie_present by exact Hin. rewrite Hrep.
      cbn [fst]. apply commit_total_B.
  - split; reflexivity.
Qed.

(** A load that fails with anything but a 401 empties the tracks and keeps
    the two totals; after a 401 the interceptor has reset them to 0. *)
Lemma loadRecommended_failure_keeps_totals (srv : Backend) (s : MovieState) (e : ApiError) :
  fst (postRecommendationsV2 srv (filters s)) = Rejected e ->
  (status_is 401 e = false ->
   trackATotalRuntime (fst (loadRecommended srv s)) = trackATotalRuntime s /\
   trackBTotalRuntime (fst (loadRecommended srv s)) = trackBTotalRuntime s) /\
  (status_is 401 e = true ->
   trackATotalRuntime (fst (loadRecommended srv s)) = 0 /\
   trackBTotalRuntime (fst (loadRecommended srv s)) = 0).
Proof.
  intros Hrej. unfold loadRecommended.
  unfold postRecommendationsV2 in *. cbn [fst] in Hrej. rewrite Hrej.
  cbn [axiosInstance_effect]. unfold responseInterceptor.
  split; intros H; rewrite H; split; reflexivity.
Qed.

(** ** Filter mutations *)

(** The filter actions of this copy of the store (lines 133-156): each of
    [setTime], [toggleGenre] and [toggleExcludeAdult] changes its own field
    of the filter selection and no other, leaves [excludedIds] empty, and
    touches nothing else in the state. *)
Lemma filter_mutations (s : MovieState) :
  (forall time,
      Filters.time (filters (setTime time s)) = time /\
      Filters.genres (filters (setTime time s)) = Filters.genres (filters s) /\
      Filters.excludeAdult (filters (setTime time s)) = Filters.excludeAdult (filters s) /\
      excludedIds (setTime time s) = [] /\
      same_outside_filters s (setTime time s)) /\
  (forall genre,
      Filters.time (filters (toggleGenre genre s)) = Filters.time (filters s) /\
      (In genre (Filters.genres (filters s)) ->
       Filters.genres (filters (toggleGenre genre s))
       = filter (fun g => negb (String.eqb g genre)) (Filters.genres (filters s))) /\
      (~ In genre (Filters.genres (filters s)) ->
       Filters.genres (filters (toggleGenre genre s)) = Filters.genres (filters s) ++ [genre]) /\
      Filters.excludeAdult (filters (toggleGenre genre s)) = Filters.excludeAdult (filters s) /\
      excludedIds (toggleGenre genre s) = [] /\
      same_outside_filters s (toggleGenre genre s)) /\
  (Filters.time (filters (toggleExcludeAdult s)) = Filters.time (filters s) /\
   Filters.genres (filters (toggleExcludeAdult s)) = Filters.genres (filters s) /\
   Filters.excludeAdult (filters (toggleExcludeAdult s))
   = negb (Filters.excludeAdult (filters s)) /\
   excludedIds (toggleExcludeAdult s) = [] /\
   same_outside_filters s (toggleExcludeAdult s)).
Proof.
  split; [|split].
  - intros time. unfold same_outside_filters. simpl. repeat split.
  - intros genre. unfold same_outside_filters. simpl.
    split; [reflexivity|]. split; [|split].
    + intros Hin. apply includes_In in Hin. rewrite Hin. reflexivity.
    + intros Hout. destruct (includes genre _) eqn:E; [|reflexivity].
      apply includes_In in E. contradiction.
    + repeat split.
  - unfold same_outside_filters. simpl. repeat split.
Qed.

(** ** Reset *)

(** C5, as the code has it: after [resetFilters] the filter selection is
    the default one, both tracks and their aliases are empty with total
    runtime 0 and the default labels, and [excludedIds] is empty;
    [isLoading], [error], [userId] and [detailMovieId] are what they were. *)
Theorem resetFilters_result (s : MovieState) :
  filters (resetFilters s) = defaultFilters /\
  trackAMovies (resetFilters s) = [] /\
  trackATotalRuntime (resetFilters s) = 0 /\
  trackALabel (resetFilters s) = LABEL_A /\
  trackBMovies (resetFilters s) = [] /\
  trackBTotalRuntime (resetFilters s) = 0 /\
  trackBLabel (resetFilters s) = LABEL_B /\
  excludedIds (resetFilters s) = [] /\
  recommendedMovies (resetFilters s) = [] /\
  popularMovies (resetFilters s) = [] /\
  isLoading (resetFilters s) = isLoading s /\
  error (resetFilters s) = error s /\
  userId (resetFilters s) = userId s /\
  detailMovieId (resetFilters s) = detailMovieId s.
Proof.
  simpl. repeat split.
Qed.

(** ** Exclusion list after a load *)

(** C6: after a successful load [excludedIds] lists the ids of track A
    followed by those of track B, so an id is excluded exactly when it is
    the id of an item of one of the two tracks. *)
Theorem loadRecommended_exclusions
    (srv : Backend) (s : MovieState) (result : RecommendResponseV2) :
  fst (postRecommendationsV2 srv (filters s)) = Resolved result ->
  excludedIds (fst (loadRecommended srv s))
  = ids (trackAMovies (fst (loadRecommended srv s)))
    ++ ids (trackBMovies (fst (loadRecommended srv s))) /\
  (forall x,
      In x (excludedIds (fst (loadRecommended srv s))) <->
      In x (ids (trackAMovies (fst (loadRecommended srv s))
                 ++ trackBMovies (fst (loadRecommended srv s))))).
Proof.
  intros Hres. rewrite (loadRecommended_success srv s result Hres). simpl.
  rewrite !ids_convert. split; [reflexivity|].
  intros x. unfold ids. rewrite map_app. fold (ids (map convertV2MovieToMovie (movies (track_a result)))).
  fold (ids (map convertV2MovieToMovie (movies (track_b result)))).
  rewrite !ids_convert. tauto.
Qed.

(** ** Successful replacement *)

Lemma only_at_In (movieId : Z) (i : nat) (l : list Movie.t) :
  only_at movieId i l -> In movieId (ids l).
Proof.
  intros [(m & Hnth & Hid) _]. unfold ids. apply in_map_iff.
  exists m. split; [exact Hid | eapply nth_error_In; exact Hnth].
Qed.

(** Removing the only item with the id and inserting at the index
    [findIndex] found puts the new item in the place of the old one. *)
Lemma replaced_track (movieId : Z) (i : nat) (l : list Movie.t) (new : Movie.t) :
  only_at movieId i l ->
  exists pre old post,
    l = pre ++ old :: post /\ List.length pre = i /\ Movie.id old = movieId /\
    splice_insert (findIndex (fun m => Movie.id m =? movieId) l) new (withoutId movieId l)
    = pre ++ new :: post.
Proof.
  intros H.
  destruct (only_at_split _ _ _ H) as (pre & old & post & -> & Hlen & Hid & Hpre & Hpost).
  exists pre, old, post. repeat split; try assumption.
  unfold findIndex.
  rewrite findIndex_from_split by (try assumption; apply Z.eqb_eq; exact Hid).
  rewrite withoutId_app. rewrite (withoutId_all _ pre Hpre).
  assert (Hcut : withoutId movieId (old :: post) = post).
  { unfold withoutId. simpl.
    assert (Hold : (Movie.id old =? movieId) = true) by (apply Z.eqb_eq; exact Hid).
    rewrite Hold. simpl. apply (withoutId_all _ post Hpost). }
  rewrite Hcut. simpl. apply splice_insert_at_length.
Qed.

Lemma nth_error_replaced {A : Type} (pre post : list A) (old new : A) :
  List.length (pre ++ new :: post) = List.length (pre ++ old :: post) /\
  nth_error (pre ++ new :: post) (List.length pre) = Some new /\
  (forall j, j <> List.length pre ->
             nth_error (pre ++ new :: post) j = nth_error (pre ++ old :: post) j).
Proof.
  split; [|split].
  - rewrite !length_app. reflexivity.
  - rewrite nth_error_app2 by lia. rewrite Nat.sub_diag. reflexivity.
  - intros j Hj. destruct (Nat.lt_ge_cases j (List.length pre)) as [Hlt|Hge].
    + rewrite !nth_error_app1 by exact Hlt. reflexivity.
    + rewrite !nth_error_app2 by exact Hge.
      destruct (j - List.length pre)%nat as [|k] eqn:E; [lia | reflexivity].
Qed.

(** C7, as the code has it: when the id occurs in the track exactly once,
    at index [i], and the single-item call delivers a replacement, the
    track keeps its length, the mapped replacement sits at index [i], every
    other position holds what it held, and [excludedIds] is the old list
    followed by the removed id and the new id. *)
Theorem replace_success_in_place
    (srv : Backend) (t : TrackId) (movieId : Z) (i : nat) (s : MovieState) (v2 : V2.t) :
  only_at movieId i (trackMovies t s) ->
  (forall req, In (PostRecommendSingle req) (snd (replaceItem srv t movieId s)) ->
               replacement (recommend_single srv req) = Some v2) ->
  List.length (trackMovies t (fst (replaceItem srv t movieId s)))
  = List.length (trackMovies t s) /\
  nth_error (trackMovies t (fst (replaceItem srv t movieId s))) i
  = Some (convertV2MovieToMovie v2) /\
  (forall j, j <> i ->
             nth_error (trackMovies t (fst (replaceItem srv t movieId s))) j
             = nth_error (trackMovies t s) j) /\
  excludedIds (fst (replaceItem srv t movieId s))
  = excludedIds s ++ [movieId; V2.tmdb_id v2].
Proof.
  intros Honly Hok.
  assert (Hin := only_at_In _ _ _ Honly).
  assert (Hcalls := replaceItem_present_calls srv t movieId s Hin).
  assert (Hrep : replacement
            (recommend_single srv (request_for (trackName t) (trackMovies t s) movieId s))
          = Some v2).
  { apply Hok. rewrite Hcalls. left. reflexivity. }
  destruct (replaced_track _ _ _ (convertV2MovieToMovie v2) Honly)
    as (pre & old & post & Hl & Hlen & Hid & Hnew).
  destruct (nth_error_replaced pre post old (convertV2MovieToMovie v2))
    as (Hlength & Hat & Hrest).
  rewrite Hlen in Hat, Hrest.
  destruct t; simpl in *.
  - rewrite removeRecommendedMovie_present by exact Hin. rewrite Hrep.
    unfold removeRecommendedMovie_commit. simpl.
    rewrite Hnew, Hl, <- app_assoc. repeat split; assumption.
  - rewrite removePopularMovie_present by exact Hin. rewrite Hrep.
    unfold removePopularMovie_commit. simpl.
    rewrite Hnew, Hl, <- app_assoc. repeat split; assumption.
Qed.

(** ** The request of a replacement *)

(** C8: when the id is in the track and the filter time splits at the colon
    into an hours and a minutes part that are decimal numerals, the action
    issues exactly one call, and its [target_runtime] is
    [hours * 60 + minutes] minus the sum of the runtimes of the items left
    after taking out the id; the call carries the exclusion list extended
    by the id and names the track. *)
Theorem replace_target_runtime
    (srv : Backend) (t : TrackId) (movieId : Z) (s : MovieState)
    (hh mm : string) (hours minutes : Z) :
  In movieId (ids (trackMovies t s)) ->
  split ":"%char (Filters.time (filters s)) = [hh; mm] ->
  Number hh = Some hours ->
  Number mm = Some minutes ->
  exists req,
    snd (replaceItem srv t movieId s) = [PostRecommendSingle req] /\
    target_runtime req
    = Some (hours * 60 + minutes - sumRuntime (withoutId movieId (trackMovies t s))) /\
    excluded_ids req = excludedIds s ++ [movieId] /\
    track req = trackName t /\
    req_genres req = Filters.genres (filters s) /\
    exclude_adult req = Filters.excludeAdult (filters s).
Proof.
  intros Hin Hsplit Hh Hm.
  exists (request_for (trackName t) (trackMovies t s) movieId s).
  split; [apply replaceItem_present_calls; exact Hin|].
  unfold request_for, timeToMinutes. simpl.
  rewrite Hsplit. simpl. rewrite Hh, Hm. simpl.
  repeat split.
Qed.

(** ** Replacement of an absent id *)

(** C9: for an id that the named track does not hold, the remove action
    returns the state it was given and issues no call. *)
Theorem replace_absent_noop
    (srv : Backend) (t : TrackId) (movieId : Z) (s : MovieState) :
  ~ In movieId (ids (trackMovies t s)) ->
  replaceItem srv t movieId s = (s, []).
Proof.
  intros H. destruct t; simpl in *.
  - apply removeRecommendedMovie_absent. exact H.
  - apply removePopularMovie_absent. exact H.
Qed.

(** ** The alias fields *)

Lemma aliases_mirror_preserved (srv : Backend) (a : Action) (s : MovieState) :
  aliases_mirror s -> aliases_mirror (step srv a s).
Proof.
  intros [HA HB]. destruct a; simpl; try (split; assumption).
  - unfold loadRecommended, postRecommendationsV2.
    destruct (recommend srv _); split; reflexivity.
  - destruct (in_dec Z.eq_dec movieId (ids (trackAMovies s))) as [Hin|Hout].
    + rewrite removeRecommendedMovie_present by exact Hin. cbn [fst].
      destruct (replacement _).
      * split; try assumption; reflexivity.
      * apply axiosInstance_effect_invariant; split; assumption || reflexivity.
    + rewrite removeRecommendedMovie_absent by exact Hout. split; assumption.
  - destruct (in_dec Z.eq_dec movieId (ids (trackBMovies s))) as [Hin|Hout].
    + rewrite removePopularMovie_present by exact Hin. cbn [fst].
      destruct (replacement _).
      * split; try assumption; reflexivity.
      * apply axiosInstance_effect_invariant; split; assumption || reflexivity.
    + rewrite removePopularMovie_absent by exact Hout. split; assumption.
  - split; reflexivity.
Qed.

Lemma aliases_mirror_run_from (tr : list (Backend * Action)) (s : MovieState) :
  aliases_mirror s -> aliases_mirror (run tr s).
Proof.
  revert s. induction tr as [|[srv a] tr IH]; intros s Hs; simpl.
  - exact Hs.
  - apply IH. apply aliases_mirror_preserved. exact Hs.
Qed.

(** C10: the alias fields mirror the tracks in the initial state, and every
    action of the store ([setUserId], [setTime], [toggleGenre],
    [toggleExcludeAdult], [loadRecommended], [removeRecommendedMovie],
    [removePopularMovie], [setDetailMovieId], [resetFilters]) started in a
    state where [recommendedMovies] equals [trackAMovies] and
    [popularMovies] equals [trackBMovies] ends in such a state, whatever
    the backend answers. *)
Theorem aliases_mirror_step (srv : Backend) (a : Action) (s : MovieState) :
  aliases_mirror initialState /\
  (aliases_mirror s -> aliases_mirror (step srv a s)).
Proof.
  split.
  - split; reflexivity.
  - apply aliases_mirror_preserved.
Qed.

(** The aliases mirror the tracks in every state a run reaches from the
    initial one. *)
Corollary aliases_mirror_reachable (tr : list (Backend * Action)) :
  aliases_mirror (run tr initialState).
Proof.
  apply aliases_mirror_run_from. split; reflexivity.
Qed.

End Properties.

(** * The scenarios, evaluated *)

(** The failed-replacement scenario: track A holds [X(90), Y(30)], the id
    of [Y] is given, and the server answers [success: false] (or the call
    is rejected without a status).  The state afterwards is the state
    before.  When the call is rejected with status 401 the store has been
    reset. *)
Lemma replace_failure_keeps_state_witness :
  In 2 (ids (trackMovies TrackA stateXY)) /\
  fst (replaceItem year2000 srvNoCandidate TrackA 2 stateXY) = stateXY /\
  fst (replaceItem year2000 srvDown TrackB 2 stateXY_B) = stateXY_B /\
  trackMovies TrackA (fst (replaceItem year2000 srvUnauthorized TrackA 2 stateXY)) = [] /\
  excludedIds (fst (replaceItem year2000 srvUnauthorized TrackA 2 stateXY)) = [].
Proof.
  split; [simpl; auto|]. split; [|split].
  - destruct (replace_failure_keeps_state year2000 srvNoCandidate TrackA 2 stateXY)
      as (_ & Hkeep & _).
    + simpl. auto.
    + intros req _. reflexivity.
    + apply Hkeep. intros e He. discriminate He.
  - destruct (replace_failure_keeps_state year2000 srvDown TrackB 2 stateXY_B)
      as (_ & Hkeep & _).
    + simpl. auto.
    + intros req _. reflexivity.
    + apply Hkeep. intros e He. injection He as <-. reflexivity.
  - destruct (replace_failure_keeps_state year2000 srvUnauthorized TrackA 2 stateXY)
      as (_ & _ & Hreset).
    + simpl. auto.
    + intros req _. reflexivity.
    + destruct (Hreset sessionExpired eq_refl eq_refl) as (_ & Htrack & _ & Hex & _).
      split; [exact Htrack | exact Hex].
Defined.

(** C1 as stated fails: in that scenario [Y] is still in the track, which
    still has two items, so the state is not the post-removal state. *)
Lemma replace_failure_not_post_removal :
  In 2 (ids (trackMovies TrackA stateXY)) /\
  recommend_single srvNoCandidate (request_for "a" (trackAMovies stateXY) 2 stateXY)
  = Resolved (mkReResponse false None (Some "no candidate")) /\
  trackAMovies (fst (replaceItem year2000 srvNoCandidate TrackA 2 stateXY))
  = [movieX; movieY] /\
  ~ post_removal TrackA 2 stateXY
      (fst (replaceItem year2000 srvNoCandidate TrackA 2 stateXY)) /\
  ~ post_removal TrackA 2 stateXY
      (fst (replaceItem year2000 srvDown TrackA 2 stateXY)).
Proof.
  split; [simpl; auto|]. split; [reflexivity|]. split; [reflexivity|].
  split; intros [Hgone _]; apply Hgone; simpl; auto.
Qed.

(** A load rejected with status 401 from the scenario state. *)
Example loadRecommended_failure_401 :
  fst (postRecommendationsV2 (srvLoadFails (mkError None (Some 401))) (filters stateXY))
  = Rejected (mkError None (Some 401)) /\
  isLoading (fst (loadRecommended year2000 (srvLoadFails (mkError None (Some 401))) stateXY))
  = false /\
  error (fst (loadRecommended year2000 (srvLoadFails (mkError None (Some 401))) stateXY))
  = Some MSG_LOGIN /\
  trackAMovies (fst (loadRecommended year2000 (srvLoadFails (mkError None (Some 401))) stateXY))
  = [].
Proof.
  split; [reflexivity|].
  destruct (loadRecommended_failure year2000
              (srvLoadFails (mkError None (Some 401))) stateXY
              (mkError None (Some 401)) eq_refl)
    as (Hload & Herr & HA & _).
  split; [exact Hload|]. split; [exact Herr | exact HA].
Defined.

(** The load scenario: the server returns three items for track A whose
    runtimes add up to 118 and reports 118; the totals agree with the
    items. *)
Lemma total_runtime_after_actions_witness :
  trackATotalRuntime (fst (loadRecommended year2000 (srvLoad 118) initialState)) = 118 /\
  runtime_ok (fst (loadRecommended year2000 (srvLoad 118) initialState)).
Proof.
  destruct (total_runtime_after_actions year2000 (srvLoad 118) initialState)
    as (Hload & _).
  destruct (Hload (response118 118) eq_refl) as (HA & _ & Hiff).
  split; [exact HA|].
  apply Hiff. split; reflexivity.
Defined.

(** C3 as stated fails: the same three items with a reported total of 120.
    The field holds 120, the items add up to 118. *)
Lemma load_total_is_reported_total :
  runtime_ok initialState /\
  fst (postRecommendationsV2 (srvLoad 120) (filters initialState))
  = Resolved (response118 120) /\
  trackATotalRuntime (fst (loadRecommended year2000 (srvLoad 120) initialState)) = 120 /\
  sumRuntime (trackAMovies (fst (loadRecommended year2000 (srvLoad 120) initialState))) = 118 /\
  ~ runtime_ok (fst (loadRecommended year2000 (srvLoad 120) initialState)).
Proof.
  split; [split; reflexivity|]. split; [reflexivity|].
  split; [reflexivity|]. split; [reflexivity|].
  intros [HA _]. vm_compute in HA. discriminate.
Qed.

(** A load that fails after one that succeeded: the tracks are empty, the
    totals are those of the earlier load. *)
Example load_failure_stale_totals :
  trackAMovies
    (run year2000
       [(srvLoad 118, LoadRecommended); (srvDown, LoadRecommended)] initialState) = [] /\
  trackATotalRuntime
    (run year2000
       [(srvLoad 118, LoadRecommended); (srvDown, LoadRecommended)] initialState) = 118.
Proof.
  split; reflexivity.
Qed.

(** C5 as stated fails: a reset after a failed load keeps the message. *)
Lemma reset_keeps_error :
  error (run year2000 [(srvDown, LoadRecommended); (srvDown, ResetFilters)] initialState)
  = Some MSG_NETWORK /\
  ~ (isLoading
       (run year2000 [(srvDown, LoadRecommended); (srvDown, ResetFilters)] initialState)
     = false /\
     error
       (run year2000 [(srvDown, LoadRecommended); (srvDown, ResetFilters)] initialState)
     = None).
Proof.
  split; [reflexivity|]. intros [_ H]. vm_compute in H. discriminate.
Qed.

(** The load scenario again: the exclusion list holds the three ids of
    track A and the id of track B. *)
Lemma loadRecommended_exclusions_witness :
  fst (postRecommendationsV2 (srvLoad 118) (filters initialState))
  = Resolved (response118 118) /\
  excludedIds (fst (loadRecommended year2000 (srvLoad 118) initialState))
  = [11; 12; 13; 21].
Proof.
  split; [reflexivity|].
  destruct (loadRecommended_exclusions year2000 (srvLoad 118) initialState
              (response118 118) eq_refl) as [Heq _].
  rewrite Heq. reflexivity.
Defined.

Lemma only_at_stateXY : only_at 2 1 (trackMovies TrackA stateXY).
Proof.
  split.
  - exists movieY. split; reflexivity.
  - intros [|[|[|j]]] m; simpl; intros Hm Hid; try discriminate.
    + injection Hm as <-. vm_compute in Hid. discriminate.
    + reflexivity.
Defined.

(** The successful-replacement scenario: [Y] at index 1 is replaced by
    movie 9, which then sits at index 1. *)
Lemma replace_success_in_place_witness :
  only_at 2 1 (trackMovies TrackA stateXY) /\
  List.length (trackMovies TrackA (fst (replaceItem year2000 srvReplace TrackA 2 stateXY)))
  = 2%nat /\
  nth_error (trackMovies TrackA (fst (replaceItem year2000 srvReplace TrackA 2 stateXY))) 1
  = Some (convertV2MovieToMovie year2000 (mkV2 9 "N" 60)) /\
  excludedIds (fst (replaceItem year2000 srvReplace TrackA 2 stateXY)) = [1; 2; 2; 9].
Proof.
  split; [exact only_at_stateXY|].
  destruct (replace_success_in_place year2000 srvReplace TrackA 2 1 stateXY
              (mkV2 9 "N" 60) only_at_stateXY (fun req _ => eq_refl))
    as (Hlen & Hat & _ & Hex).
  split; [exact Hlen|]. split; [exact Hat | exact Hex].
Defined.

(** C7 as stated fails.  After a load, a genre change and the replacement
    of [Y] by [X], track A holds two items with the id of [X]; replacing
    that id takes both out and puts one in, so the track gets shorter. *)
Lemma replace_duplicate_id_shrinks :
  ids (trackMovies TrackA stateDup) = [1; 1] /\
  (exists m, nth_error (trackMovies TrackA stateDup) 0 = Some m /\ Movie.id m = 1) /\
  replacement
    (recommend_single srvCatalog (request_for "a" (trackAMovies stateDup) 1 stateDup))
  = Some (mkV2 9 "N" 60) /\
  ids (trackMovies TrackA (fst (replaceItem year2000 srvCatalog TrackA 1 stateDup))) = [9] /\
  List.length (trackMovies TrackA (fst (replaceItem year2000 srvCatalog TrackA 1 stateDup)))
  <> List.length (trackMovies TrackA stateDup).
Proof.
  split; [reflexivity|]. split; [eexists; split; reflexivity|].
  split; [reflexivity|]. split; [reflexivity|].
  vm_compute. discriminate.
Qed.

(** The target-runtime scenario: items [X(90), Y(30)], time "02:30";
    removing [Y] asks for 150 - 90 = 60 minutes. *)
Lemma replace_target_runtime_witness :
  In 2 (ids (trackMovies TrackA stateXY)) /\
  exists req,
    snd (replaceItem year2000 srvReplace TrackA 2 stateXY) = [PostRecommendSingle req] /\
    target_runtime req = Some 60.
Proof.
  split; [simpl; auto|].
  destruct (replace_target_runtime year2000 srvReplace TrackA 2 stateXY
              "02" "30" 2 30) as (req & Hcalls & Htarget & _).
  - simpl. auto.
  - reflexivity.
  - reflexivity.
  - reflexivity.
  - exists req. split; [exact Hcalls | exact Htarget].
Defined.

(** An id that track A does not hold. *)
Lemma replace_absent_noop_witness :
  ~ In 7 (ids (trackMovies TrackA stateXY)) /\
  replaceItem year2000 srvReplace TrackA 7 stateXY = (stateXY, []).
Proof.
  assert (H : ~ In 7 (ids (trackMovies TrackA stateXY))).
  { simpl. intros [H|[H|[]]]; discriminate. }
  split; [exact H|].
  apply (replace_absent_noop year2000 srvReplace TrackA 7 stateXY H).
Defined.

(** The aliases after a successful replacement in the scenario state. *)
Lemma aliases_mirror_step_witness :
  aliases_mirror stateXY /\
  aliases_mirror (step year2000 srvReplace (RemoveRecommendedMovie 2) stateXY).
Proof.
  assert (H : aliases_mirror stateXY) by (split; reflexivity).
  split; [exact H|].
  apply (proj2 (aliases_mirror_step year2000 srvReplace (RemoveRecommendedMovie 2) stateXY) H).
Defined.

(** * The earlier copy of the store, where it differs *)

(** Its filter actions leave [excludedIds] as it was. *)
Lemma earlier_filters_keep_exclusions (s : MovieState) :
  (forall time, excludedIds (Earlier.setTime time s) = excludedIds s) /\
  (forall genre, excludedIds (Earlier.toggleGenre genre s) = excludedIds s) /\
  excludedIds (Earlier.toggleExcludeAdult s) = excludedIds s.
Proof.
  repeat split.
Qed.

(** C4 on the earlier copy of the store (lines 491-509): from the scenario
    state, whose exclusion list is [[1; 2]], each of its three filter
    actions changes its field of the selection and leaves the exclusion
    list [[1; 2]], where the claim says it is empty.  The other copy (lines
    133-156), whose comments say that the list is reset on each such
    change, empties it from the same state. *)
Theorem earlier_filters_leave_excludedIds :
  excludedIds stateXY = [1; 2] /\
  Filters.time (filters (Earlier.setTime "01:00" stateXY)) = "01:00" /\
  excludedIds (Earlier.setTime "01:00" stateXY) = [1; 2] /\
  Filters.genres (filters (Earlier.toggleGenre "SF" stateXY)) = ["SF"] /\
  excludedIds (Earlier.toggleGenre "SF" stateXY) = [1; 2] /\
  Filters.excludeAdult (filters (Earlier.toggleExcludeAdult stateXY)) = true /\
  excludedIds (Earlier.toggleExcludeAdult stateXY) = [1; 2] /\
  excludedIds (setTime "01:00" stateXY) = [] /\
  excludedIds (toggleGenre "SF" stateXY) = [] /\
  excludedIds (toggleExcludeAdult stateXY) = [].
Proof.
  repeat split.
Qed.

(** C2 on the earlier copy of the store (lines 567-570): a load from the
    scenario state that fails because the server cannot be reached
    ([ERR_NETWORK], no response) ends with [isLoading] false, with the
    generic message instead of the one for an unreachable network, and
    with both items still in track A, where the claim says the message is
    picked by the kind of failure and the tracks are empty.  The other copy
    (lines 214-239) stores the network message and empties the tracks from
    the same state. *)
Theorem earlier_load_failure_generic_keeps_tracks :
  fst (postRecommendationsV2 srvDown (filters stateXY))
  = Rejected (mkError (Some "ERR_NETWORK") None) /\
  isLoading (fst (Earlier.loadRecommended year2000 srvDown stateXY)) = false /\
  error (fst (Earlier.loadRecommended year2000 srvDown stateXY)) = Some MSG_GENERIC /\
  MSG_GENERIC <> MSG_NETWORK /\
  trackAMovies (fst (Earlier.loadRecommended year2000 srvDown stateXY)) = [movieX; movieY] /\
  recommendedMovies (fst (Earlier.loadRecommended year2000 srvDown stateXY))
  = [movieX; movieY] /\
  error (fst (loadRecommended year2000 srvDown stateXY)) = Some MSG_NETWORK /\
  trackAMovies (fst (loadRecommended year2000 srvDown stateXY)) = [] /\
  trackBMovies (fst (loadRecommended year2000 srvDown stateXY)) = [].
Proof.
  split; [reflexivity|]. split; [reflexivity|]. split; [reflexivity|].
  split; [intros H; apply String.eqb_eq in H; vm_compute in H; discriminate|].
  repeat split.
Qed.

(** Its failed load stores the generic message whatever the failure.  It
    writes neither the tracks nor the exclusion list: they are what they
    were, unless the call was rejected with status 401, when the response
    interceptor has reset the store and cleared [userId] before the message
    is stored. *)
Lemma earlier_load_failure
    (getFullYear : string -> Z) (srv : Backend) (s : MovieState) (e : ApiError) :
  fst (postRecommendationsV2 srv (filters s)) = Rejected e ->
  isLoading (fst (Earlier.loadRecommended getFullYear srv s)) = false /\
  error (fst (Earlier.loadRecommended getFullYear srv s)) = Some MSG_GENERIC /\
  (status_is 401 e = false ->
   fst (Earlier.loadRecommended getFullYear srv s)
   = s |> set_error (Some MSG_GENERIC) |> set_isLoading false) /\
  (status_is 401 e = false ->
   trackAMovies (fst (Earlier.loadRecommended getFullYear srv s)) = trackAMovies s /\
   trackBMovies (fst (Earlier.loadRecommended getFullYear srv s)) = trackBMovies s /\
   excludedIds (fst (Earlier.loadRecommended getFullYear srv s)) = excludedIds s) /\
  (status_is 401 e = true ->
   trackAMovies (fst (Earlier.loadRecommended getFullYear srv s)) = [] /\
   trackBMovies (fst (Earlier.loadRecommended getFullYear srv s)) = [] /\
   excludedIds (fst (Earlier.loadRecommended getFullYear srv s)) = [] /\
   filters (fst (Earlier.loadRecommended getFullYear srv s)) = defaultFilters /\
   userId (fst (Earlier.loadRecommended getFullYear srv s)) = None).
Proof.
  intros Hrej. unfold Earlier.loadRecommended.
  unfold postRecommendationsV2 in *. cbn [fst] in Hrej. rewrite Hrej.
  cbn [axiosInstance_effect fst]. unfold responseInterceptor.
  split; [reflexivity|]. split; [reflexivity|].
  split; [|split]; intros H; rewrite H; repeat split.
Qed.

(** Its remove actions take the movie out before the call.  Without a
    replacement the state is the one stored before the call (the track
    without the movie, the total-runtime field as it was with the movie,
    the id excluded), after whatever the call did to the store; with a
    replacement the new movie goes to the end of the track. *)
Lemma earlier_removeRecommendedMovie
    (getFullYear : string -> Z) (srv : Backend) (movieId : Z) (s : MovieState) :
  In movieId (ids (trackAMovies s)) ->
  match replacement (recommend_single srv (request_for "a" (trackAMovies s) movieId s)) with
  | None =>
      fst (Earlier.removeRecommendedMovie getFullYear srv movieId s)
      = axiosInstance_effect
          (recommend_single srv (request_for "a" (trackAMovies s) movieId s))
          (s |> set_trackAMovies (withoutId movieId (trackAMovies s))
             |> set_recommendedMovies (withoutId movieId (trackAMovies s))
             |> set_excludedIds (excludedIds s ++ [movieId]))
  | Some v2 =>
      trackAMovies (fst (Earlier.removeRecommendedMovie getFullYear srv movieId s))
      = withoutId movieId (trackAMovies s) ++ [convertV2MovieToMovie getFullYear v2] /\
      trackATotalRuntime (fst (Earlier.removeRecommendedMovie getFullYear srv movieId s))
      = sumRuntime (withoutId movieId (trackAMovies s)) + V2.runtime v2 /\
      excludedIds (fst (Earlier.removeRecommendedMovie getFullYear srv movieId s))
      = excludedIds s ++ [movieId; V2.tmdb_id v2]
  end.
Proof.
  intros Hin. destruct (find_present _ _ Hin) as [m Hm].
  unfold Earlier.removeRecommendedMovie. rewrite Hm.
  unfold postReRecommendSingle, request_for, replacement.
  destruct (recommend_single srv _) as [r|e]; [|reflexivity].
  destruct (success r), (movie r); cbn [axiosInstance_effect fst];
    try reflexivity.
  simpl. rewrite <- ?app_assoc. repeat split.
Qed.

Lemma earlier_removePopularMovie
    (getFullYear : string -> Z) (srv : Backend) (movieId : Z) (s : MovieState) :
  In movieId (ids (trackBMovies s)) ->
  match replacement (recommend_single srv (request_for "b" (trackBMovies s) movieId s)) with
  | None =>
      fst (Earlier.removePopularMovie getFullYear srv movieId s)
      = axiosInstance_effect
          (recommend_single srv (request_for "b" (trackBMovies s) movieId s))
          (s |> set_trackBMovies (withoutId movieId (trackBMovies s))
             |> set_popularMovies (withoutId movieId (trackBMovies s))
             |> set_excludedIds (excludedIds s ++ [movieId]))
  | Some v2 =>
      trackBMovies (fst (Earlier.removePopularMovie getFullYear srv movieId s))
      = withoutId movieId (trackBMovies s) ++ [convertV2MovieToMovie getFullYear v2] /\
      trackBTotalRuntime (fst (Earlier.removePopularMovie getFullYear srv movieId s))
      = sumRuntime (withoutId movieId (trackBMovies s)) + V2.runtime v2 /\
      excludedIds (fst (Earlier.removePopularMovie getFullYear srv movieId s))
      = excludedIds s ++ [movieId; V2.tmdb_id v2]
  end.
Proof.
  intros Hin. destruct (find_present _ _ Hin) as [m Hm].
  unfold Earlier.removePopularMovie. rewrite Hm.
  unfold postReRecommendSingle, request_for, replacement.
  destruct (recommend_single srv _) as [r|e]; [|reflexivity].
  destruct (success r), (movie r); cbn [axiosInstance_effect fst];
    try reflexivity.
  simpl. rewrite <- ?app_assoc. repeat split.
Qed.

(** The failed-replacement scenario in the earlier copy: the track is
    [X(90)], the total-runtime field still reads 120. *)
Example earlier_replace_failure_scenario :
  trackAMovies (fst (Earlier.removeRecommendedMovie year2000 srvNoCandidate 2 stateXY))
  = [movieX] /\
  trackATotalRuntime (fst (Earlier.removeRecommendedMovie year2000 srvNoCandidate 2 stateXY))
  = 120 /\
  sumRuntime
    (trackAMovies (fst (Earlier.removeRecommendedMovie year2000 srvNoCandidate 2 stateXY)))
  = 90.
Proof.
  repeat split.
Qed.

(** The successful-replacement scenario in the earlier copy, on the first
    item: the new movie is last, not first. *)
Example earlier_replace_success_scenario :
  ids (trackAMovies (fst (Earlier.removeRecommendedMovie year2000 srvReplace 1 stateXY)))
  = [2; 9].
Proof.
  reflexivity.
Qed.

(** * Further properties of the store *)

Lemma In_splice_insert {A : Type} (k : Z) (y x : A) (l : list A) :
  In x (splice_insert k y l) <-> x = y \/ In x l.
Proof.
  unfold splice_insert. set (n := Z.to_nat _).
  rewrite <- (firstn_skipn n l) at 3.
  rewrite !in_app_iff. simpl. intuition congruence.
Qed.

Lemma length_splice_insert {A : Type} (k : Z) (y : A) (l : list A) :
  List.length (splice_insert k y l) = S (List.length l).
Proof.
  unfold splice_insert. set (n := Z.to_nat _).
  rewrite <- (firstn_skipn n l) at 3.
  rewrite !length_app. simpl. lia.
Qed.

Lemma In_ids_withoutId (movieId x : Z) (l : list Movie.t) :
  In x (ids (withoutId movieId l)) <-> In x (ids l) /\ x <> movieId.
Proof.
  unfold ids, withoutId. rewrite !in_map_iff. split.
  - intros (m & Hid & Hin). apply filter_In in Hin. destruct Hin as [Hin Hneq].
    apply negb_true_iff, Z.eqb_neq in Hneq. split; [exists m; tauto | congruence].
  - intros [(m & Hid & Hin) Hneq]. exists m. split; [exact Hid|].
    apply filter_In. split; [exact Hin|].
    apply negb_true_iff, Z.eqb_neq. congruence.
Qed.

Lemma length_withoutId (movieId : Z) (l : list Movie.t) :
  (List.length (withoutId movieId l) + count_occ Z.eq_dec (ids l) movieId
   = List.length l)%nat.
Proof.
  unfold withoutId, ids. induction l as [|m l IH]; simpl.
  - reflexivity.
  - destruct (Z.eq_dec (Movie.id m) movieId) as [Heq|Hneq].
    + assert (H : (Movie.id m =? movieId) = true) by (apply Z.eqb_eq; exact Heq).
      rewrite H. simpl. lia.
    + assert (H : (Movie.id m =? movieId) = false) by (apply Z.eqb_neq; exact Hneq).
      rewrite H. simpl. lia.
Qed.

Lemma filters_eta (f : Filters.t) :
  Filters.mk (Filters.time f) (Filters.genres f) (Filters.excludeAdult f) = f.
Proof. destruct f. reflexivity. Qed.

Lemma filter_other_genres_all (genre : string) (gs : list string) :
  ~ In genre gs -> filter (fun g => negb (String.eqb g genre)) gs = gs.
Proof.
  induction gs as [|a gs IH]; intros H; simpl.
  - reflexivity.
  - destruct (String.eqb_spec a genre) as [->|Hneq].
    + exfalso. apply H. left. reflexivity.
    + simpl. f_equal. apply IH. intros Hin. apply H. right. exact Hin.
Qed.

Lemma In_filter_other_genres (genre g : string) (gs : list string) :
  In g (filter (fun g => negb (String.eqb g genre)) gs) <-> In g gs /\ g <> genre.
Proof.
  rewrite filter_In. split; intros [Hin H]; (split; [exact Hin|]).
  - apply negb_true_iff in H. apply String.eqb_neq. exact H.
  - apply negb_true_iff. apply String.eqb_neq. exact H.
Qed.

Lemma NoDup_snoc {A : Type} (l : list A) (x : A) :
  NoDup l -> ~ In x l -> NoDup (l ++ [x]).
Proof.
  induction l as [|a l IH]; intros Hnd Hx; simpl.
  - constructor; [intros [] | constructor].
  - inversion Hnd as [|? ? Ha Hl]; subst. constructor.
    + rewrite in_app_iff. intros [Hin|[Heq|[]]]; [contradiction|].
      apply Hx. left. symmetry. exact Heq.
    + apply IH; [exact Hl|]. intros Hin. apply Hx. right. exact Hin.
Qed.

(** ** Genres *)

(** Toggling a genre flips whether that genre is selected and leaves the
    selection of every other genre as it was. *)
Theorem toggleGenre_membership (genre g : string) (s : MovieState) :
  (In genre (Filters.genres (filters (toggleGenre genre s)))
   <-> ~ In genre (Filters.genres (filters s))) /\
  (g <> genre ->
   (In g (Filters.genres (filters (toggleGenre genre s)))
    <-> In g (Filters.genres (filters s)))).
Proof.
  simpl. destruct (includes genre (Filters.genres (filters s))) eqn:E.
  - apply includes_In in E. split.
    + rewrite In_filter_other_genres. tauto.
    + intros Hneq. rewrite In_filter_other_genres. tauto.
  - assert (Hout : ~ In genre (Filters.genres (filters s))).
    { intros Hin. apply includes_In in Hin. congruence. }
    split.
    + rewrite in_app_iff. simpl. tauto.
    + intros Hneq. rewrite in_app_iff. simpl. intuition congruence.
Qed.

(** Toggling a genre that is not selected and toggling it again gives back
    the filter selection; for a genre that is selected the two toggles move
    it to the end of the list (and drop its repetitions). *)
Theorem toggleGenre_twice (genre : string) (s : MovieState) :
  (~ In genre (Filters.genres (filters s)) ->
   filters (toggleGenre genre (toggleGenre genre s)) = filters s) /\
  (In genre (Filters.genres (filters s)) ->
   Filters.genres (filters (toggleGenre genre (toggleGenre genre s)))
   = filter (fun g => negb (String.eqb g genre)) (Filters.genres (filters s)) ++ [genre]).
Proof.
  split.
  - intros Hout. simpl.
    destruct (includes genre (Filters.genres (filters s))) eqn:E.
    { apply includes_In in E. contradiction. }
    assert (Hin : includes genre (Filters.genres (filters s) ++ [genre]) = true).
    { apply includes_In. rewrite in_app_iff. right. left. reflexivity. }
    rewrite Hin. rewrite filter_app. simpl. rewrite String.eqb_refl. simpl.
    rewrite app_nil_r, (filter_other_genres_all _ _ Hout). apply filters_eta.
  - intros Hin. simpl. apply includes_In in Hin. rewrite Hin.
    destruct (includes genre (filter _ (Filters.genres (filters s)))) eqn:E; [|reflexivity].
    apply includes_In in E. apply In_filter_other_genres in E. tauto.
Qed.

Lemma NoDup_toggleGenre (genre : string) (s : MovieState) :
  NoDup (Filters.genres (filters s)) ->
  NoDup (Filters.genres (filters (toggleGenre genre s))).
Proof.
  intros Hnd. simpl. destruct (includes genre (Filters.genres (filters s))) eqn:E.
  - apply NoDup_filter. exact Hnd.
  - apply NoDup_snoc; [exact Hnd|]. intros Hin. apply includes_In in Hin. congruence.
Qed.

Section MoreProperties.

Variable getFullYear : string -> Z.

Local Abbreviation convertV2MovieToMovie := (convertV2MovieToMovie getFullYear).
Local Abbreviation loadRecommended := (loadRecommended getFullYear).
Local Abbreviation removeRecommendedMovie := (removeRecommendedMovie getFullYear).
Local Abbreviation removePopularMovie := (removePopularMovie getFullYear).
Local Abbreviation replaceItem := (replaceItem getFullYear).
Local Abbreviation step := (step getFullYear).
Local Abbreviation run := (run getFullYear).

(** An action that calls the backend leaves the filter selection as it
    was, or (after a 401) as the reset leaves it. *)
Lemma filters_loadRecommended (srv : Backend) (s : MovieState) :
  filters (fst (loadRecommended srv s)) = filters s \/
  filters (fst (loadRecommended srv s)) = defaultFilters.
Proof.
  unfold loadRecommended, postRecommendationsV2.
  destruct (recommend srv _) as [result|e]; [left; reflexivity|].
  cbn [axiosInstance_effect]. unfold responseInterceptor.
  destruct (status_is 401 e); [right | left]; reflexivity.
Qed.

Lemma filters_axiosInstance_effect {A : Type} (o : outcome A) (s : MovieState) :
  filters (axiosInstance_effect o s) = filters s \/
  filters (axiosInstance_effect o s) = defaultFilters.
Proof.
  destruct (axiosInstance_effect_cases o s) as [->|(e & _ & _ & ->)];
    [left | right]; reflexivity.
Qed.

Lemma filters_removeRecommendedMovie (srv : Backend) (movieId : Z) (s : MovieState) :
  filters (fst (removeRecommendedMovie srv movieId s)) = filters s \/
  filters (fst (removeRecommendedMovie srv movieId s)) = defaultFilters.
Proof.
  destruct (in_dec Z.eq_dec movieId (ids (trackAMovies s))) as [Hin|Hout].
  - rewrite (removeRecommendedMovie_present getFullYear srv movieId s Hin). cbn [fst].
    destruct (replacement _); [left; reflexivity | apply filters_axiosInstance_effect].
  - rewrite (removeRecommendedMovie_absent getFullYear srv movieId s Hout).
    left. reflexivity.
Qed.

Lemma filters_removePopularMovie (srv : Backend) (movieId : Z) (s : MovieState) :
  filters (fst (removePopularMovie srv movieId s)) = filters s \/
  filters (fst (removePopularMovie srv movieId s)) = defaultFilters.
Proof.
  destruct (in_dec Z.eq_dec movieId (ids (trackBMovies s))) as [Hin|Hout].
  - rewrite (removePopularMovie_present getFullYear srv movieId s Hin). cbn [fst].
    destruct (replacement _); [left; reflexivity | apply filters_axiosInstance_effect].
  - rewrite (removePopularMovie_absent getFullYear srv movieId s Hout).
    left. reflexivity.
Qed.

Lemma genres_NoDup_step (srv : Backend) (a : Action) (s : MovieState) :
  NoDup (Filters.genres (filters s)) ->
  NoDup (Filters.genres (filters (step srv a s))).
Proof.
  intros Hnd. destruct a; simpl; try exact Hnd.
  - apply (NoDup_toggleGenre genre s Hnd).
  - destruct (filters_loadRecommended srv s) as [->| ->]; [exact Hnd | constructor].
  - destruct (filters_removeRecommendedMovie srv movieId s) as [->| ->];
      [exact Hnd | constructor].
  - destruct (filters_removePopularMovie srv movieId s) as [->| ->];
      [exact Hnd | constructor].
  - constructor.
Qed.

Lemma genres_NoDup_run (tr : list (Backend * Action)) (s : MovieState) :
  NoDup (Filters.genres (filters s)) ->
  NoDup (Filters.genres (filters (run tr s))).
Proof.
  revert s. induction tr as [|[srv a] tr IH]; intros s Hs; simpl.
  - exact Hs.
  - apply IH. apply genres_NoDup_step. exact Hs.
Qed.

(** In every state a run of the store reaches from the initial state, the
    list of selected genres holds no genre twice. *)
Theorem genres_NoDup_reachable (tr : list (Backend * Action)) :
  NoDup (Filters.genres (filters (run tr initialState))).
Proof.
  apply genres_NoDup_run. simpl. constructor.
Qed.

(** ** The exclusion list *)

(** A remove action on an id the track holds, in closed form. *)
Lemma replaceItem_present_fst (srv : Backend) (t : TrackId) (movieId : Z) (s : MovieState) :
  In movieId (ids (trackMovies t s)) ->
  fst (replaceItem srv t movieId s)
  = match replacement
            (recommend_single srv
               (request_for (trackName t) (trackMovies t s) movieId s)) with
    | Some v2 =>
        match t with
        | TrackA =>
            removeRecommendedMovie_commit movieId
              (findIndex (fun m => Movie.id m =? movieId) (trackAMovies s))
              (sumRuntime (withoutId movieId (trackAMovies s)))
              (excludedIds s ++ [movieId]) (convertV2MovieToMovie v2) s
        | TrackB =>
            removePopularMovie_commit movieId
              (findIndex (fun m => Movie.id m =? movieId) (trackBMovies s))
              (sumRuntime (withoutId movieId (trackBMovies s)))
              (excludedIds s ++ [movieId]) (convertV2MovieToMovie v2) s
        end
    | None =>
        axiosInstance_effect
          (recommend_single srv
             (request_for (trackName t) (trackMovies t s) movieId s)) s
    end.
Proof.
  intros Hin. destruct t; cbn [replaceItem trackMovies trackName] in *.
  - rewrite (removeRecommendedMovie_present getFullYear srv movieId s Hin). cbn [fst].
    destruct (replacement _); reflexivity.
  - rewrite (removePopularMovie_present getFullYear srv movieId s Hin). cbn [fst].
    destruct (replacement _); reflexivity.
Qed.

Lemma replaceItem_absent_fst (srv : Backend) (t : TrackId) (movieId : Z) (s : MovieState) :
  ~ In movieId (ids (trackMovies t s)) -> fst (replaceItem srv t movieId s) = s.
Proof.
  intros Hout. destruct t; cbn [replaceItem trackMovies] in *.
  - rewrite (removeRecommendedMovie_absent getFullYear srv movieId s Hout). reflexivity.
  - rewrite (removePopularMovie_absent getFullYear srv movieId s Hout). reflexivity.
Qed.



Lemma covers_removeRecommendedMovie (srv : Backend) (movieId : Z) (s : MovieState) :
  covers s -> covers (fst (removeRecommendedMovie srv movieId s)).
Proof.
  intros Hc.
  destruct (in_dec Z.eq_dec movieId (ids (trackAMovies s))) as [Hin|Hout].
  - rewrite (removeRecommendedMovie_present getFullYear srv movieId s Hin). cbn [fst].
    destruct (replacement _) as [v2|];
      [|apply axiosInstance_effect_invariant; [exact Hc | intros x []]].
    unfold covers, removeRecommendedMovie_commit. simpl. intros x Hx.
    rewrite !in_app_iff. rewrite in_app_iff in Hx. destruct Hx as [Hx|Hx].
    + unfold ids in Hx. apply in_map_iff in Hx. destruct Hx as (m & Hid & Hm).
      apply In_splice_insert in Hm. destruct Hm as [->|Hm].
      * right. left. exact Hid.
      * left. left. apply Hc. rewrite in_app_iff. left.
        assert (H : In x (ids (withoutId movieId (trackAMovies s)))).
        { unfold ids. apply in_map_iff. exists m. split; assumption. }
        apply In_ids_withoutId in H. tauto.
    + left. left. apply Hc. rewrite in_app_iff. right. exact Hx.
  - rewrite (removeRecommendedMovie_absent getFullYear srv movieId s Hout). exact Hc.
Qed.

Lemma covers_removePopularMovie (srv : Backend) (movieId : Z) (s : MovieState) :
  covers s -> covers (fst (removePopularMovie srv movieId s)).
Proof.
  intros Hc.
  destruct (in_dec Z.eq_dec movieId (ids (trackBMovies s))) as [Hin|Hout].
  - rewrite (removePopularMovie_present getFullYear srv movieId s Hin). cbn [fst].
    destruct (replacement _) as [v2|];
      [|apply axiosInstance_effect_invariant; [exact Hc | intros x []]].
    unfold covers, removePopularMovie_commit. simpl. intros x Hx.
    rewrite !in_app_iff. rewrite in_app_iff in Hx. destruct Hx as [Hx|Hx].
    + left. left. apply Hc. rewrite in_app_iff. left. exact Hx.
    + unfold ids in Hx. apply in_map_iff in Hx. destruct Hx as (m & Hid & Hm).
      apply In_splice_insert in Hm. destruct Hm as [->|Hm].
      * right. left. exact Hid.
      * left. left. apply Hc. rewrite in_app_iff. right.
        assert (H : In x (ids (withoutId movieId (trackBMovies s)))).
        { unfold ids. apply in_map_iff. exists m. split; assumption. }
        apply In_ids_withoutId in H. tauto.
  - rewrite (removePopularMovie_absent getFullYear srv movieId s Hout). exact Hc.
Qed.

Lemma covers_loadRecommended (srv : Backend) (s : MovieState) :
  covers (fst (loadRecommended srv s)).
Proof.
  unfold loadRecommended, postRecommendationsV2.
  destruct (recommend srv _) as [result|e]; unfold covers; simpl.
  - intros x Hx. rewrite !(ids_convert getFullYear) in Hx. exact Hx.
  - intros x [].
Qed.

(** Every action that is not a filter mutation keeps the exclusion list a
    superset of the ids shown in the two tracks; a load (whatever its
    outcome) and a reset establish that. *)
Theorem covers_kept (srv : Backend) (a : Action) (s : MovieState) :
  (is_filter_mutation a = false -> covers s -> covers (step srv a s)) /\
  covers (step srv LoadRecommended s) /\
  covers (step srv ResetFilters s).
Proof.
  split; [|split].
  - intros Ha Hc. destruct a; simpl in *; try discriminate; try exact Hc.
    + apply covers_loadRecommended.
    + apply covers_removeRecommendedMovie. exact Hc.
    + apply covers_removePopularMovie. exact Hc.
    + intros x [].
  - apply covers_loadRecommended.
  - intros x [].
Qed.

(** A filter mutation on a state that shows at least one movie leaves the
    exclusion list empty while the movie is still shown: the ids on screen
    are no longer excluded. *)
Theorem filter_mutation_uncovers (srv : Backend) (a : Action) (s : MovieState) :
  is_filter_mutation a = true ->
  trackAMovies s ++ trackBMovies s <> [] ->
  excludedIds (step srv a s) = [] /\
  trackAMovies (step srv a s) = trackAMovies s /\
  trackBMovies (step srv a s) = trackBMovies s /\
  ~ covers (step srv a s).
Proof.
  intros Ha Hne.
  assert (H : excludedIds (step srv a s) = [] /\
              trackAMovies (step srv a s) = trackAMovies s /\
              trackBMovies (step srv a s) = trackBMovies s).
  { destruct a; simpl in *; try discriminate; repeat split. }
  destruct H as (Hex & HA & HB). repeat split; try assumption.
  unfold covers. rewrite Hex, HA, HB. intros Hc.
  destruct (trackAMovies s ++ trackBMovies s) as [|m l] eqn:E; [contradiction|].
  apply (Hc (Movie.id m)).
  unfold ids. rewrite <- map_app, E. left. reflexivity.
Qed.

(** ** What a remove action leaves alone *)

(** Whatever the backend answers, a remove action changes neither the
    inspected movie id, [isLoading] nor [error].  Unless its call is
    rejected with status 401 it changes neither the filter selection, the
    user id nor the labels, and it leaves the other track with its items
    and its total; after a 401 the response interceptor has cleared the user
    id and reset the filter selection, the labels and both tracks. *)
Theorem replace_frame
    (srv : Backend) (t t' : TrackId) (movieId : Z) (s : MovieState) :
  detailMovieId (fst (replaceItem srv t movieId s)) = detailMovieId s /\
  isLoading (fst (replaceItem srv t movieId s)) = isLoading s /\
  error (fst (replaceItem srv t movieId s)) = error s /\
  ((In movieId (ids (trackMovies t s)) ->
    forall e,
      recommend_single srv (request_for (trackName t) (trackMovies t s) movieId s)
      = Rejected e -> status_is 401 e = false) ->
   filters (fst (replaceItem srv t movieId s)) = filters s /\
   userId (fst (replaceItem srv t movieId s)) = userId s /\
   trackALabel (fst (replaceItem srv t movieId s)) = trackALabel s /\
   trackBLabel (fst (replaceItem srv t movieId s)) = trackBLabel s /\
   (t' <> t ->
    trackMovies t' (fst (replaceItem srv t movieId s)) = trackMovies t' s /\
    trackTotalRuntime t' (fst (replaceItem srv t movieId s)) = trackTotalRuntime t' s)) /\
  (In movieId (ids (trackMovies t s)) ->
   forall e,
     recommend_single srv (request_for (trackName t) (trackMovies t s) movieId s)
     = Rejected e -> status_is 401 e = true ->
     filters (fst (replaceItem srv t movieId s)) = defaultFilters /\
     userId (fst (replaceItem srv t movieId s)) = None /\
     trackALabel (fst (replaceItem srv t movieId s)) = LABEL_A /\
     trackBLabel (fst (replaceItem srv t movieId s)) = LABEL_B /\
     trackMovies t' (fst (replaceItem srv t movieId s)) = [] /\
     trackTotalRuntime t' (fst (replaceItem srv t movieId s)) = 0).
Proof.
  assert (Hfst := replaceItem_present_fst srv t movieId s).
  assert (Habs := replaceItem_absent_fst srv t movieId s).
  assert (Hkept : detailMovieId (fst (replaceItem srv t movieId s)) = detailMovieId s /\
                  isLoading (fst (replaceItem srv t movieId s)) = isLoading s /\
                  error (fst (replaceItem srv t movieId s)) = error s).
  { destruct (in_dec Z.eq_dec movieId (ids (trackMovies t s))) as [Hin|Hout].
    - rewrite (Hfst Hin). destruct (replacement _) as [v2|].
      + destruct t; repeat split.
      + apply (axiosInstance_effect_invariant
                 (fun s' => detailMovieId s' = detailMovieId s /\
                            isLoading s' = isLoading s /\ error s' = error s));
          repeat split.
    - rewrite (Habs Hout). repeat split. }
  destruct Hkept as (Hd & Hl & He).
  split; [exact Hd|]. split; [exact Hl|]. split; [exact He|]. split.
  - intros Hother.
    destruct (in_dec Z.eq_dec movieId (ids (trackMovies t s))) as [Hin|Hout].
    + rewrite (Hfst Hin). destruct (replacement _) as [v2|].
      * destruct t; repeat split; destruct t'; try reflexivity; congruence.
      * rewrite (axiosInstance_effect_not_401 _ _ (Hother Hin)). repeat split.
    + rewrite (Habs Hout). repeat split.
  - intros Hin e Hrej H401. rewrite (Hfst Hin), Hrej.
    cbn [replacement axiosInstance_effect].
    rewrite (responseInterceptor_401 _ _ H401). destruct t'; repeat split.
Qed.

(** ** Shape of a track after a replacement *)

Lemma replaced_track_general (movieId : Z) (l : list Movie.t) (new : Movie.t) :
  In movieId (ids l) ->
  exists pre old post,
    l = pre ++ old :: post /\ Movie.id old = movieId /\ ~ In movieId (ids pre) /\
    splice_insert (findIndex (fun m => Movie.id m =? movieId) l) new (withoutId movieId l)
    = pre ++ new :: withoutId movieId post.
Proof.
  intros Hin. apply In_ids_exists in Hin.
  destruct (first_split _ _ Hin) as (pre & old & post & -> & Hpre & Hold).
  exists pre, old, post.
  assert (Hnot : ~ In movieId (ids pre)).
  { intros H. apply In_ids_exists in H. destruct H as (x & Hx & Hid).
    rewrite (Hpre x Hx) in Hid. discriminate. }
  repeat split; [apply Z.eqb_eq; exact Hold | exact Hnot |].
  unfold findIndex. rewrite findIndex_from_split by assumption.
  rewrite withoutId_app, (withoutId_all _ pre Hpre).
  assert (Hcut : withoutId movieId (old :: post) = withoutId movieId post).
  { unfold withoutId. simpl. rewrite Hold. reflexivity. }
  rewrite Hcut. simpl. apply splice_insert_at_length.
Qed.

(** When the id is in the track (once or several times) and the call
    delivers a replacement, the items before the first item with that id
    stay, the mapped replacement takes the place of that first item, and of
    the items after it those with another id follow in their order. *)
Theorem replace_success_shape
    (srv : Backend) (t : TrackId) (movieId : Z) (s : MovieState) (v2 : V2.t) :
  In movieId (ids (trackMovies t s)) ->
  replacement (recommend_single srv (request_for (trackName t) (trackMovies t s) movieId s))
  = Some v2 ->
  exists pre old post,
    trackMovies t s = pre ++ old :: post /\
    Movie.id old = movieId /\
    ~ In movieId (ids pre) /\
    trackMovies t (fst (replaceItem srv t movieId s))
    = pre ++ convertV2MovieToMovie v2 :: withoutId movieId post.
Proof.
  intros Hin Hrep.
  destruct (replaced_track_general movieId (trackMovies t s) (convertV2MovieToMovie v2) Hin)
    as (pre & old & post & Hl & Hid & Hpre & Hnew).
  exists pre, old, post. repeat split; try assumption.
  destruct t; simpl in *.
  - rewrite (removeRecommendedMovie_present getFullYear srv movieId s Hin), Hrep.
    unfold removeRecommendedMovie_commit. simpl. exact Hnew.
  - rewrite (removePopularMovie_present getFullYear srv movieId s Hin), Hrep.
    unfold removePopularMovie_commit. simpl. exact Hnew.
Qed.

(** After a replacement that succeeds, the track is shorter by the number
    of items that carried the id, less one: its new length plus the number
    of occurrences of the id equals its old length plus one. *)
Theorem replace_success_length
    (srv : Backend) (t : TrackId) (movieId : Z) (s : MovieState) (v2 : V2.t) :
  In movieId (ids (trackMovies t s)) ->
  replacement (recommend_single srv (request_for (trackName t) (trackMovies t s) movieId s))
  = Some v2 ->
  (List.length (trackMovies t (fst (replaceItem srv t movieId s)))
   + count_occ Z.eq_dec (ids (trackMovies t s)) movieId
   = List.length (trackMovies t s) + 1)%nat.
Proof.
  intros Hin Hrep.
  assert (Hlen := length_withoutId movieId (trackMovies t s)).
  destruct t; simpl in *.
  - rewrite (removeRecommendedMovie_present getFullYear srv movieId s Hin), Hrep.
    unfold removeRecommendedMovie_commit. simpl.
    rewrite length_splice_insert. lia.
  - rewrite (removePopularMovie_present getFullYear srv movieId s Hin), Hrep.
    unfold removePopularMovie_commit. simpl.
    rewrite length_splice_insert. lia.
Qed.

(** ** The runtime budget *)

(** When the filter time is a valid budget, a replacement that succeeds
    leaves the track's total at the budget plus the amount by which the
    runtime of the new movie exceeds the requested [target_runtime]; a
    replacement of exactly the requested runtime brings the total to the
    budget. *)
Theorem replace_total_meets_budget
    (srv : Backend) (t : TrackId) (movieId : Z) (s : MovieState) (v2 : V2.t)
    (budget : Z) :
  In movieId (ids (trackMovies t s)) ->
  timeToMinutes (Filters.time (filters s)) = Some budget ->
  replacement (recommend_single srv (request_for (trackName t) (trackMovies t s) movieId s))
  = Some v2 ->
  exists target,
    target_runtime (request_for (trackName t) (trackMovies t s) movieId s) = Some target /\
    trackTotalRuntime t (fst (replaceItem srv t movieId s))
    = budget + (V2.runtime v2 - target) /\
    (V2.runtime v2 = target ->
     trackTotalRuntime t (fst (replaceItem srv t movieId s)) = budget).
Proof.
  intros Hin Hbudget Hrep.
  exists (budget - sumRuntime (withoutId movieId (trackMovies t s))).
  split; [unfold request_for; simpl; rewrite Hbudget; reflexivity|].
  assert (Htotal : trackTotalRuntime t (fst (replaceItem srv t movieId s))
                   = sumRuntime (withoutId movieId (trackMovies t s)) + V2.runtime v2).
  { destruct t; simpl in *.
    - rewrite (removeRecommendedMovie_present getFullYear srv movieId s Hin), Hrep.
      reflexivity.
    - rewrite (removePopularMovie_present getFullYear srv movieId s Hin), Hrep.
      reflexivity. }
  rewrite Htotal. split; [lia | intros Heq; lia].
Qed.

(** ** Loads *)

Lemma loadRecommended_resolved
    (srv : Backend) (s : MovieState) (result : RecommendResponseV2) :
  fst (postRecommendationsV2 srv (filters s)) = Resolved result ->
  loadRecommended srv s =
  (mkState (filters s) (userId s)
     (map convertV2MovieToMovie (movies (track_a result)))
     (total_runtime (track_a result)) (label (track_a result))
     (map convertV2MovieToMovie (movies (track_b result)))
     (total_runtime (track_b result)) (label (track_b result))
     (map V2.tmdb_id (movies (track_a result)) ++ map V2.tmdb_id (movies (track_b result)))
     (map convertV2MovieToMovie (movies (track_a result)))
     (map convertV2MovieToMovie (movies (track_b result)))
     (detailMovieId s) false None,
   fst (snd (postRecommendationsV2 srv (filters s)))).
Proof.
  intros Hres. unfold loadRecommended.
  unfold postRecommendationsV2 in *. cbn [fst snd] in *. rewrite Hres. reflexivity.
Qed.

Lemma loadRecommended_rejected (srv : Backend) (s : MovieState) (e : ApiError) :
  fst (postRecommendationsV2 srv (filters s)) = Rejected e ->
  loadRecommended srv s =
  (if status_is 401 e
   then mkState defaultFilters None [] 0 LABEL_A [] 0 LABEL_B [] [] []
          (detailMovieId s) false (Some (errorMessageOf e))
   else mkState (filters s) (userId s)
          [] (trackATotalRuntime s) (trackALabel s)
          [] (trackBTotalRuntime s) (trackBLabel s)
          (excludedIds s) [] [] (detailMovieId s) false (Some (errorMessageOf e)),
   fst (snd (postRecommendationsV2 srv (filters s)))).
Proof.
  intros Hrej. unfold loadRecommended.
  unfold postRecommendationsV2 in *. cbn [fst snd] in *. rewrite Hrej.
  cbn [axiosInstance_effect]. unfold responseInterceptor.
  destruct (status_is 401 e); reflexivity.
Qed.

(** Loading again against a backend that answers the same way changes
    nothing, unless the load is rejected with status 401: the second load
    ends in the state the first one ended in and issues the same call.
    After a 401 the response interceptor has reset the filter selection, so
    a second load asks for the default selection. *)
Theorem loadRecommended_idempotent (srv : Backend) (s : MovieState) :
  ((forall e, fst (postRecommendationsV2 srv (filters s)) = Rejected e ->
              status_is 401 e = false) ->
   loadRecommended srv (fst (loadRecommended srv s)) = loadRecommended srv s) /\
  (forall e, fst (postRecommendationsV2 srv (filters s)) = Rejected e ->
             status_is 401 e = true ->
             filters (fst (loadRecommended srv s)) = defaultFilters /\
             snd (loadRecommended srv (fst (loadRecommended srv s)))
             = [PostRecommend (mkBody (Some 0) [] false)]).
Proof.
  split.
  - intros Hother.
    destruct (fst (postRecommendationsV2 srv (filters s))) as [result|e] eqn:E.
    + rewrite (loadRecommended_resolved srv s result E). cbn [fst].
      match goal with
      | |- loadRecommended srv ?x = _ => rewrite (loadRecommended_resolved srv x result E)
      end.
      reflexivity.
    + rewrite (loadRecommended_rejected srv s e E), (Hother e eq_refl). cbn [fst].
      match goal with
      | |- loadRecommended srv ?x = _ =>
          rewrite (loadRecommended_rejected srv x e E), (Hother e eq_refl)
      end.
      reflexivity.
  - intros e E H401.
    rewrite (loadRecommended_rejected srv s e E), H401. cbn [fst].
    split; [reflexivity|].
    unfold loadRecommended, postRecommendationsV2.
    destruct (recommend srv _); reflexivity.
Qed.

(** The call of a load is built from the filter selection alone, and a load
    that succeeds overwrites both tracks, their totals and labels, the
    exclusion list, the aliases, [isLoading] and [error]: two states with
    the same filter selection, user id and inspected movie id end in the
    same state. *)
Theorem loadRecommended_overwrites
    (srv : Backend) (s1 s2 : MovieState) (result : RecommendResponseV2) :
  filters s1 = filters s2 ->
  fst (postRecommendationsV2 srv (filters s1)) = Resolved result ->
  snd (loadRecommended srv s1) = snd (loadRecommended srv s2) /\
  (userId s1 = userId s2 -> detailMovieId s1 = detailMovieId s2 ->
   fst (loadRecommended srv s1) = fst (loadRecommended srv s2)).
Proof.
  intros Hf Hres.
  assert (Hres2 : fst (postRecommendationsV2 srv (filters s2)) = Resolved result)
    by (rewrite <- Hf; exact Hres).
  split.
  - unfold loadRecommended, postRecommendationsV2. rewrite Hf.
    destruct (recommend srv _); reflexivity.
  - intros Hu Hd.
    rewrite (loadRecommended_success getFullYear srv s1 result Hres).
    rewrite (loadRecommended_success getFullYear srv s2 result Hres2).
    rewrite Hf, Hu, Hd. reflexivity.
Qed.

(** ** The mapper *)

(** Mapping the items of a server track keeps their ids in order and the
    sum of their runtimes; a mapped item carries its id also as [tmdb_id],
    is neither [popular] nor [watched], and its poster is the empty string
    exactly when the server sent no poster path (or an empty one). *)
Theorem convertV2MovieToMovie_keeps (l : list V2.t) (v : V2.t) :
  ids (map convertV2MovieToMovie l) = map V2.tmdb_id l /\
  sumRuntime (map convertV2MovieToMovie l) = sumRuntimeV2 l /\
  Movie.tmdb_id (convertV2MovieToMovie v) = Some (Movie.id (convertV2MovieToMovie v)) /\
  Movie.popular (convertV2MovieToMovie v) = false /\
  Movie.watched (convertV2MovieToMovie v) = false /\
  (Movie.poster (convertV2MovieToMovie v) = EmptyString <->
   V2.poster_path v = None \/ V2.poster_path v = Some EmptyString).
Proof.
  split; [apply (ids_convert getFullYear)|].
  split; [apply (sumRuntime_convert getFullYear)|].
  repeat split.
  - simpl. unfold if_truthy. destruct (V2.poster_path v) as [p|]; [|auto].
    destruct (String.eqb_spec p EmptyString) as [->|Hne]; [auto|].
    simpl. discriminate.
  - simpl. unfold if_truthy. intros [H|H]; rewrite H; reflexivity.
Qed.

End MoreProperties.

(** * Properties of the display helpers *)

Lemma append_nonempty (a b : string) : b <> EmptyString -> (a ++ b)%string <> EmptyString.
Proof.
  intros Hb. destruct a; simpl; [exact Hb | discriminate].
Qed.

Lemma Number_from_nonneg (s : string) (acc n : Z) :
  0 <= acc -> Number_from acc s = Some n -> 0 <= n.
Proof.
  revert acc. induction s as [|c s IH]; intros acc Hacc H; cbn [Number_from] in H.
  - injection H as <-. exact Hacc.
  - unfold digit_of in H.
    destruct ((48 <=? nat_of_ascii c)%nat && (nat_of_ascii c <=? 57)%nat); [|discriminate].
    eapply IH; [|exact H]. lia.
Qed.

Lemma Number_nonneg (s : string) (n : Z) : Number s = Some n -> 0 <= n.
Proof.
  apply Number_from_nonneg. lia.
Qed.

(** [formatRuntime] gives the empty text for 0 minutes and for no other
    number of minutes. *)
Theorem formatRuntime_empty_iff (minutes : Z) :
  formatRuntime minutes = EmptyString <-> minutes = 0.
Proof.
  unfold formatRuntime. destruct (Z.eqb_spec minutes 0) as [->|Hne].
  - tauto.
  - split; [|contradiction]. intros H. exfalso. revert H.
    destruct (minutes / 60 =? 0); [|destruct (Z.rem minutes 60 =? 0)].
    + apply append_nonempty. discriminate.
    + apply append_nonempty. discriminate.
    + apply append_nonempty. discriminate.
Qed.

Lemma split_budget (h m : Z) :
  0 <= h -> 0 <= m < 60 -> (h * 60 + m) / 60 = h /\ Z.rem (h * 60 + m) 60 = m.
Proof.
  intros Hh Hm. split.
  - rewrite Z.div_add_l by lia. rewrite Z.div_small by lia. lia.
  - rewrite Z.rem_mod_nonneg by lia.
    rewrite Z.add_comm, Z.mod_add by lia. apply Z.mod_small. lia.
Qed.

(** For a filter time whose two parts are decimal numerals with fewer than
    60 minutes, the filter summary and the track header print a duration
    the same way: [formatTime] of the time is [formatRuntime] of its number
    of minutes -- except for a time of zero, where the summary reads
    "no limit" and [formatRuntime] is empty. *)
Theorem formatTime_formatRuntime (time hh mm : string) (rest : list string) (h m : Z) :
  split ":"%char time = hh :: mm :: rest ->
  Number hh = Some h ->
  Number mm = Some m ->
  m < 60 ->
  timeToMinutes time = Some (h * 60 + m) /\
  (h * 60 + m <> 0 -> formatTime time = Some (formatRuntime (h * 60 + m))) /\
  (h * 60 + m = 0 ->
   formatTime time = Some "제한 없이" /\ formatRuntime (h * 60 + m) = EmptyString).
Proof.
  intros Hsplit Hh Hm Hlt.
  assert (H0h := Number_nonneg _ _ Hh). assert (H0m := Number_nonneg _ _ Hm).
  destruct (split_budget h m H0h (conj H0m Hlt)) as [Hdiv Hrem].
  unfold timeToMinutes, formatTime. rewrite Hsplit. simpl. rewrite Hh, Hm.
  split; [reflexivity|]. split.
  - intros Hne. unfold formatRuntime. rewrite Hdiv, Hrem.
    destruct (Z.eqb_spec (h * 60 + m) 0) as [Hz|_]; [contradiction|].
    destruct (Z.eqb_spec h 0) as [->|Hh0]; simpl.
    + destruct (Z.eqb_spec m 0) as [->|_]; [lia | reflexivity].
    + reflexivity.
  - intros Hz. assert (h = 0) by lia. assert (m = 0) by lia. subst. split; reflexivity.
Qed.

(** ** The cards of track B *)

(** [displayMovies] starts with the movies of the track in their order and
    has three cards when the track has fewer than three movies, one card
    per movie otherwise; the loop has stopped (no fourth round is needed);
    the card added at position [i] is the placeholder for [i]. *)
Theorem displayMovies_fill (popularMovies : list Movie.t) :
  List.length (displayMovies popularMovies) = Nat.max 3 (List.length popularMovies) /\
  firstn (List.length popularMovies) (displayMovies popularMovies)
  = map Shown popularMovies /\
  (List.length (displayMovies popularMovies) <? 3)%nat = false /\
  (forall i, (List.length popularMovies <= i < 3)%nat ->
             nth_error (displayMovies popularMovies) i
             = Some (Placeholder (createEmptyCard (Z.of_nat i)))).
Proof.
  unfold displayMovies.
  destruct popularMovies as [|a [|b [|c l]]]; simpl.
  - repeat split. intros [|[|[|i]]] Hi; try reflexivity; lia.
  - repeat split. intros [|[|[|i]]] Hi; try reflexivity; lia.
  - repeat split. intros [|[|[|i]]] Hi; try reflexivity; lia.
  - split; [|split; [|split]].
    + rewrite length_map. lia.
    + do 3 f_equal. rewrite <- (length_map Shown l). apply firstn_all.
    + reflexivity.
    + intros i Hi. lia.
Qed.

Lemma In_displayMovies (popularMovies : list Movie.t) (c : DisplayCard) :
  In c (displayMovies popularMovies) ->
  (exists m, c = Shown m /\ In m popularMovies) \/
  (exists i, c = Placeholder (createEmptyCard i) /\ 0 <= i < 3).
Proof.
  unfold displayMovies.
  destruct popularMovies as [|a [|b [|d l]]]; simpl.
  - intros [<-|[<-|[<-|[]]]]; right; eexists; (split; [reflexivity | lia]).
  - intros [<-|[<-|[<-|[]]]];
      [left; eexists; split; [reflexivity | auto] | |];
      right; eexists; (split; [reflexivity | lia]).
  - intros [<-|[<-|[<-|[]]]];
      [left; eexists; split; [reflexivity | auto]
      |left; eexists; split; [reflexivity | auto] |];
      right; eexists; (split; [reflexivity | lia]).
  - intros H. left.
    destruct H as [<-|[<-|[<-|H]]]; try (eexists; split; [reflexivity | auto]).
    apply in_map_iff in H. destruct H as (m & <- & Hm).
    exists m. split; [reflexivity | auto].
Qed.

(** The cards never hand a placeholder to the store: an id a card passes to
    [removePopularMovie] is the id of a movie of the track, a placeholder
    shows no re-recommend button and is never marked watched. *)
Theorem cardProps_placeholders
    (watchedMovieIds : list Z) (popularMovies : list Movie.t) (c : DisplayCard) :
  In c (displayMovies popularMovies) ->
  (forall movieId, onReRecommend (cardProps watchedMovieIds c) = Some movieId ->
                   In movieId (ids popularMovies)) /\
  (card_isEmpty c = true ->
   onReRecommend (cardProps watchedMovieIds c) = None /\
   showReRecommend (cardProps watchedMovieIds c) = false /\
   props_watched (cardProps watchedMovieIds c) = false /\
   -202 <= key (cardProps watchedMovieIds c) <= -200).
Proof.
  intros Hin.
  destruct (In_displayMovies _ _ Hin) as [(m & -> & Hm)|(i & -> & Hi)].
  - split.
    + simpl. intros movieId H. injection H as <-.
      unfold ids. apply in_map. exact Hm.
    + simpl. discriminate.
  - split.
    + simpl. discriminate.
    + intros _. split; [reflexivity|]. split; [reflexivity|]. split; [reflexivity|].
      unfold cardProps, card_id, createEmptyCard. cbn [key empty_id]. lia.
Qed.

(** When the movies of the track have pairwise different ids, all above
    -200, the cards have pairwise different React keys. *)
Theorem displayMovies_keys_distinct (popularMovies : list Movie.t) :
  NoDup (ids popularMovies) ->
  (forall m, In m popularMovies -> -200 < Movie.id m) ->
  NoDup (map card_id (displayMovies popularMovies)).
Proof.
  intros Hnd Hpos. unfold displayMovies.
  destruct popularMovies as [|a [|b [|c l]]].
  - simpl. repeat constructor; simpl; intuition lia.
  - assert (Ha := Hpos a (or_introl eq_refl)).
    simpl. repeat constructor; simpl; intuition lia.
  - assert (Ha := Hpos a (or_introl eq_refl)).
    assert (Hb := Hpos b (or_intror (or_introl eq_refl))).
    inversion Hnd as [|? ? Hab _]; subst.
    simpl. repeat constructor; simpl; try (intuition lia).
    intros [H|[H|[]]]; [apply Hab; left; exact H | lia].
  - change (fillEmptyCards 3 (map Shown (a :: b :: c :: l)))
      with (map Shown (a :: b :: c :: l)).
    rewrite map_map. exact Hnd.
Qed.

(** ** The carousel *)

Lemma rem_next (totalMovies c : Z) :
  0 <= c < totalMovies ->
  Z.rem (c + 1) totalMovies = if c + 1 =? totalMovies then 0 else c + 1.
Proof.
  intros Hr. rewrite Z.rem_mod_nonneg by lia.
  destruct (Z.eqb_spec (c + 1) totalMovies) as [He|Hne]; symmetry.
  - apply (Z.mod_unique _ _ 1); lia.
  - apply (Z.mod_unique _ _ 0); lia.
Qed.

Lemma rem_prev (totalMovies c : Z) :
  0 <= c < totalMovies ->
  Z.rem (c - 1 + totalMovies) totalMovies = if c =? 0 then totalMovies - 1 else c - 1.
Proof.
  intros Hr. rewrite Z.rem_mod_nonneg by lia.
  destruct (Z.eqb_spec c 0) as [He|Hne]; symmetry.
  - apply (Z.mod_unique _ _ 0); lia.
  - apply (Z.mod_unique _ _ 1); lia.
Qed.

(** With at least one card and the current index in range, [goToNext] and
    [goToPrev] give an index in range, and each undoes the other. *)
Theorem carousel_next_prev (totalMovies currentIndex : Z) :
  0 <= currentIndex < totalMovies ->
  exists next prev,
    goToNext totalMovies currentIndex = Some next /\
    goToPrev totalMovies currentIndex = Some prev /\
    0 <= next < totalMovies /\
    0 <= prev < totalMovies /\
    goToPrev totalMovies next = Some currentIndex /\
    goToNext totalMovies prev = Some currentIndex.
Proof.
  intros Hr. unfold goToNext, goToPrev, js_rem.
  assert (Hz : (totalMovies =? 0) = false) by (apply Z.eqb_neq; lia).
  rewrite Hz.
  exists (Z.rem (currentIndex + 1) totalMovies),
         (Z.rem (currentIndex - 1 + totalMovies) totalMovies).
  assert (Hnext := rem_next totalMovies currentIndex Hr).
  assert (Hprev := rem_prev totalMovies currentIndex Hr).
  assert (Hn : 0 <= Z.rem (currentIndex + 1) totalMovies < totalMovies).
  { rewrite Hnext. destruct (Z.eqb_spec (currentIndex + 1) totalMovies); lia. }
  assert (Hp : 0 <= Z.rem (currentIndex - 1 + totalMovies) totalMovies < totalMovies).
  { rewrite Hprev. destruct (Z.eqb_spec currentIndex 0); lia. }
  split; [reflexivity|]. split; [reflexivity|].
  split; [exact Hn|]. split; [exact Hp|]. split; f_equal.
  - rewrite (rem_prev _ _ Hn), Hnext.
    destruct (Z.eqb_spec (currentIndex + 1) totalMovies) as [He|Hne].
    + simpl. lia.
    + destruct (Z.eqb_spec (currentIndex + 1) 0); lia.
  - rewrite (rem_next _ _ Hp), Hprev.
    destruct (Z.eqb_spec currentIndex 0) as [He|Hne].
    + destruct (Z.eqb_spec (totalMovies - 1 + 1) totalMovies); lia.
    + destruct (Z.eqb_spec (currentIndex - 1 + 1) totalMovies); lia.
Qed.

(** With three cards or more and the current index in range, the cards to
    the left and to the right of the current one are two different cards,
    both different from the current one, and a card is drawn in the center,
    on the left or on the right exactly when it is the current, the previous
    or the next one; every other card is hidden. *)
Theorem carousel_positions (totalMovies currentIndex index : Z) :
  3 <= totalMovies ->
  0 <= currentIndex < totalMovies ->
  exists prev next,
    goToPrev totalMovies currentIndex = Some prev /\
    goToNext totalMovies currentIndex = Some next /\
    prev <> currentIndex /\ next <> currentIndex /\ prev <> next /\
    (getCardPosition currentIndex totalMovies index = center <-> index = currentIndex) /\
    (getCardPosition currentIndex totalMovies index = left_1 <-> index = prev) /\
    (getCardPosition currentIndex totalMovies index = right_1 <-> index = next) /\
    (getCardPosition currentIndex totalMovies index = hidden <->
     index <> currentIndex /\ index <> prev /\ index <> next).
Proof.
  intros H3 Hr. unfold goToNext, goToPrev, getCardPosition, js_rem.
  assert (Hz : (totalMovies =? 0) = false) by (apply Z.eqb_neq; lia).
  rewrite Hz.
  assert (Hnext := rem_next totalMovies currentIndex Hr).
  assert (Hprev := rem_prev totalMovies currentIndex Hr).
  exists (Z.rem (currentIndex - 1 + totalMovies) totalMovies),
         (Z.rem (currentIndex + 1) totalMovies).
  set (prev := Z.rem (currentIndex - 1 + totalMovies) totalMovies) in *.
  set (next := Z.rem (currentIndex + 1) totalMovies) in *.
  assert (Hpc : prev <> currentIndex).
  { rewrite Hprev. destruct (Z.eqb_spec currentIndex 0); lia. }
  assert (Hnc : next <> currentIndex).
  { rewrite Hnext. destruct (Z.eqb_spec (currentIndex + 1) totalMovies); lia. }
  assert (Hpn : prev <> next).
  { rewrite Hprev, Hnext.
    destruct (Z.eqb_spec currentIndex 0);
      destruct (Z.eqb_spec (currentIndex + 1) totalMovies); lia. }
  split; [reflexivity|]. split; [reflexivity|].
  split; [exact Hpc|]. split; [exact Hnc|]. split; [exact Hpn|].
  simpl same_index.
  destruct (Z.eqb_spec index currentIndex) as [Hc|Hc];
    [|destruct (Z.eqb_spec index prev) as [Hp|Hp];
      [|destruct (Z.eqb_spec index next) as [Hn|Hn]]];
    repeat split; intros; try discriminate; try congruence; try tauto.
Qed.

(** With exactly two cards the card that is not the current one is drawn
    on the left, and no card is ever drawn on the right. *)
Theorem carousel_two_cards (currentIndex index : Z) :
  0 <= currentIndex < 2 ->
  (0 <= index < 2 -> index <> currentIndex ->
   getCardPosition currentIndex 2 index = left_1) /\
  getCardPosition currentIndex 2 index <> right_1.
Proof.
  intros Hr.
  assert (Hc : currentIndex = 0 \/ currentIndex = 1) by lia.
  split.
  - intros Hi Hne. assert (Hx : index = 0 \/ index = 1) by lia.
    destruct Hc as [->| ->], Hx as [->| ->]; try contradiction; reflexivity.
  - unfold getCardPosition, js_rem.
    destruct Hc as [->| ->]; cbn;
      destruct (index =? 0), (index =? 1); discriminate.
Qed.

(** * Properties of the earlier copy of the store *)

Lemma earlier_covers_step
    (getFullYear : string -> Z) (srv : Backend) (a : Action) (s : MovieState) :
  covers s -> covers (step_earlier getFullYear srv a s).
Proof.
  intros Hc. destruct a; simpl; try exact Hc.
  - unfold Earlier.loadRecommended, postRecommendationsV2.
    destruct (recommend srv _) as [result|e].
    2: { cbn [axiosInstance_effect]. unfold responseInterceptor.
         destruct (status_is 401 e); unfold covers; simpl; [intros x [] | exact Hc]. }
    unfold covers. simpl. intros x Hx. rewrite !(ids_convert getFullYear) in Hx. exact Hx.
  - unfold Earlier.removeRecommendedMovie.
    destruct (find _ (trackAMovies s)); [|exact Hc].
    unfold postReRecommendSingle.
    assert (Hs1 : forall x,
               In x (ids (withoutId movieId (trackAMovies s)) ++ ids (trackBMovies s)) ->
               In x (excludedIds s ++ [movieId])).
    { intros x Hx. rewrite in_app_iff. left. apply Hc.
      rewrite in_app_iff in *. destruct Hx as [Hx|Hx]; [left | right; exact Hx].
      apply In_ids_withoutId in Hx. tauto. }
    destruct (recommend_single srv _) as [r|e].
    2: { cbn [fst]. apply axiosInstance_effect_invariant; [exact Hs1 | intros x []]. }
    destruct (success r); [|destruct (movie r); exact Hs1].
    destruct (movie r) as [v2|]; [|exact Hs1].
    unfold covers. simpl. intros x Hx.
    unfold ids in Hx. rewrite map_app, <- app_assoc in Hx. simpl in Hx.
    rewrite in_app_iff in Hx. rewrite in_app_iff.
    destruct Hx as [Hx|[Hx|Hx]].
    + left. apply Hs1. rewrite in_app_iff. left. exact Hx.
    + right. left. exact Hx.
    + left. apply Hs1. rewrite in_app_iff. right. exact Hx.
  - unfold Earlier.removePopularMovie.
    destruct (find _ (trackBMovies s)); [|exact Hc].
    unfold postReRecommendSingle.
    assert (Hs1 : forall x,
               In x (ids (trackAMovies s) ++ ids (withoutId movieId (trackBMovies s))) ->
               In x (excludedIds s ++ [movieId])).
    { intros x Hx. rewrite in_app_iff. left. apply Hc.
      rewrite in_app_iff in *. destruct Hx as [Hx|Hx]; [left; exact Hx | right].
      apply In_ids_withoutId in Hx. tauto. }
    destruct (recommend_single srv _) as [r|e].
    2: { cbn [fst]. apply axiosInstance_effect_invariant; [exact Hs1 | intros x []]. }
    destruct (success r); [|destruct (movie r); exact Hs1].
    destruct (movie r) as [v2|]; [|exact Hs1].
    unfold covers. simpl. intros x Hx.
    unfold ids in Hx. rewrite map_app in Hx. simpl in Hx.
    rewrite !in_app_iff in Hx. rewrite in_app_iff.
    destruct Hx as [Hx|[Hx|[Hx|[]]]].
    + left. apply Hs1. rewrite in_app_iff. left. exact Hx.
    + left. apply Hs1. rewrite in_app_iff. right. exact Hx.
    + right. left. exact Hx.
  - intros x [].
Qed.

(** In the earlier copy every action keeps the exclusion list a superset of
    the ids shown in the two tracks, so this holds in every state a run
    reaches from the initial state. *)
Theorem earlier_covers_reachable
    (getFullYear : string -> Z) (tr : list (Backend * Action)) :
  covers (run_earlier getFullYear tr initialState).
Proof.
  assert (H : forall s, covers s -> covers (run_earlier getFullYear tr s)).
  { induction tr as [|[srv a] tr IH]; intros s Hs; simpl.
    - exact Hs.
    - apply IH. apply earlier_covers_step. exact Hs. }
  apply H. intros x [].
Qed.

(** In the earlier copy a remove action takes the movie out before the
    call.  Without a replacement the track stays without the movie and the
    total-runtime field keeps the value it had with the movie, unless the
    call was rejected with status 401: then the response interceptor has
    reset the store, the track is empty and its total is 0.  With a
    replacement the new movie goes to the end of the track and the total is
    the sum of the items. *)
Theorem earlier_remove_takes_out_first
    (getFullYear : string -> Z) (srv : Backend) (movieId : Z) (s : MovieState) :
  (In movieId (ids (trackAMovies s)) ->
   match replacement (recommend_single srv (request_for "a" (trackAMovies s) movieId s)) with
   | None =>
       ((forall e,
            recommend_single srv (request_for "a" (trackAMovies s) movieId s) = Rejected e ->
            status_is 401 e = false) ->
        trackAMovies (fst (Earlier.removeRecommendedMovie getFullYear srv movieId s))
        = withoutId movieId (trackAMovies s) /\
        trackATotalRuntime (fst (Earlier.removeRecommendedMovie getFullYear srv movieId s))
        = trackATotalRuntime s) /\
       (forall e,
           recommend_single srv (request_for "a" (trackAMovies s) movieId s) = Rejected e ->
           status_is 401 e = true ->
           trackAMovies (fst (Earlier.removeRecommendedMovie getFullYear srv movieId s)) = [] /\
           trackATotalRuntime (fst (Earlier.removeRecommendedMovie getFullYear srv movieId s)) = 0)
   | Some v2 =>
       trackAMovies (fst (Earlier.removeRecommendedMovie getFullYear srv movieId s))
       = withoutId movieId (trackAMovies s) ++ [convertV2MovieToMovie getFullYear v2] /\
       trackATotalRuntime (fst (Earlier.removeRecommendedMovie getFullYear srv movieId s))
       = sumRuntime
           (trackAMovies (fst (Earlier.removeRecommendedMovie getFullYear srv movieId s)))
   end) /\
  (In movieId (ids (trackBMovies s)) ->
   match replacement (recommend_single srv (request_for "b" (trackBMovies s) movieId s)) with
   | None =>
       ((forall e,
            recommend_single srv (request_for "b" (trackBMovies s) movieId s) = Rejected e ->
            status_is 401 e = false) ->
        trackBMovies (fst (Earlier.removePopularMovie getFullYear srv movieId s))
        = withoutId movieId (trackBMovies s) /\
        trackBTotalRuntime (fst (Earlier.removePopularMovie getFullYear srv movieId s))
        = trackBTotalRuntime s) /\
       (forall e,
           recommend_single srv (request_for "b" (trackBMovies s) movieId s) = Rejected e ->
           status_is 401 e = true ->
           trackBMovies (fst (Earlier.removePopularMovie getFullYear srv movieId s)) = [] /\
           trackBTotalRuntime (fst (Earlier.removePopularMovie getFullYear srv movieId s)) = 0)
   | Some v2 =>
       trackBMovies (fst (Earlier.removePopularMovie getFullYear srv movieId s))
       = withoutId movieId (trackBMovies s) ++ [convertV2MovieToMovie getFullYear v2] /\
       trackBTotalRuntime (fst (Earlier.removePopularMovie getFullYear srv movieId s))
       = sumRuntime
           (trackBMovies (fst (Earlier.removePopularMovie getFullYear srv movieId s)))
   end).
Proof.
  split; intros Hin.
  - assert (H := earlier_removeRecommendedMovie getFullYear srv movieId s Hin).
    destruct (replacement _) as [v2|].
    + destruct H as (Ht & Htot & _). split; [exact Ht|].
      rewrite Htot, Ht, sumRuntime_app, sumRuntime_cons. simpl. unfold sumRuntime at 3.
      simpl. lia.
    + rewrite H. split.
      * intros Hother. rewrite (axiosInstance_effect_not_401 _ _ Hother).
        split; reflexivity.
      * intros e Hrej H401. rewrite Hrej. cbn [axiosInstance_effect].
        rewrite (responseInterceptor_401 _ _ H401). split; reflexivity.
  - assert (H := earlier_removePopularMovie getFullYear srv movieId s Hin).
    destruct (replacement _) as [v2|].
    + destruct H as (Ht & Htot & _). split; [exact Ht|].
      rewrite Htot, Ht, sumRuntime_app, sumRuntime_cons. simpl. unfold sumRuntime at 3.
      simpl. lia.
    + rewrite H. split.
      * intros Hother. rewrite (axiosInstance_effect_not_401 _ _ Hother).
        split; reflexivity.
      * intros e Hrej H401. rewrite Hrej. cbn [axiosInstance_effect].
        rewrite (responseInterceptor_401 _ _ H401). split; reflexivity.
Qed.

(** * Properties of the detail call *)

Lemma if_truthy_id_nonempty (o : option string) (default : string) :
  default <> EmptyString -> if_truthy o (fun s => s) default <> EmptyString.
Proof.
  intros Hd. unfold if_truthy. destruct o as [s|]; [|exact Hd].
  destruct (String.eqb_spec s EmptyString); assumption.
Qed.

Lemma if_truthy_url (o : option string) (base : string) :
  if_truthy o (fun p => base ++ p)%string EmptyString = EmptyString \/
  exists p, o = Some p /\ p <> EmptyString /\
            if_truthy o (fun p => base ++ p)%string EmptyString = (base ++ p)%string.
Proof.
  unfold if_truthy. destruct o as [p|]; [|left; reflexivity].
  destruct (String.eqb_spec p EmptyString) as [->|Hne]; [left; reflexivity|].
  right. exists p. repeat split. exact Hne.
Qed.

(** A detail that [getMovieDetail] delivers has a non-empty overview and
    release date, a poster and a backdrop URL that are empty or the TMDB
    base URL followed by a non-empty path, and one provider per entry of
    the response, in order, each with an empty logo; a rejected call is
    passed on with its error. *)
Theorem getMovieDetail_defaults
    (CastT : Type) (get : Z -> outcome (Detail.Data CastT)) (movieId : Z) :
  (forall d,
      Detail.getMovieDetail CastT get movieId = Resolved d ->
      Detail.d_overview CastT d <> EmptyString /\
      Detail.d_release_date CastT d <> EmptyString /\
      (Detail.d_poster_url CastT d = EmptyString \/
       exists p, p <> EmptyString /\
                 Detail.d_poster_url CastT d = ("https://image.tmdb.org/t/p/w500" ++ p)%string) /\
      (Detail.d_backdrop_url CastT d = EmptyString \/
       exists p, p <> EmptyString /\
                 Detail.d_backdrop_url CastT d
                 = ("https://image.tmdb.org/t/p/original" ++ p)%string) /\
      (forall p, In p (Detail.d_ott_providers CastT d) -> Detail.ott_logo p = EmptyString) /\
      (exists data,
          get movieId = Resolved data /\
          map Detail.ott_id (Detail.d_ott_providers CastT d)
          = map Detail.provider_id
              (match Detail.otts CastT data with Some l => l | None => [] end))) /\
  (forall e, get movieId = Rejected e ->
             Detail.getMovieDetail CastT get movieId = Rejected e).
Proof.
  split.
  - intros d Hd. unfold Detail.getMovieDetail in Hd.
    destruct (get movieId) as [data|e] eqn:Eget; [|discriminate].
    destruct (Detail.info CastT data) as [movie|]; [|discriminate].
    injection Hd as <-. cbn [Detail.d_overview Detail.d_release_date Detail.d_poster_url
                            Detail.d_backdrop_url Detail.d_ott_providers].
    split; [apply if_truthy_id_nonempty; discriminate|].
    split; [apply if_truthy_id_nonempty; discriminate|].
    split.
    { destruct (if_truthy_url (Detail.poster_path CastT movie)
                  "https://image.tmdb.org/t/p/w500") as [H|(p & _ & Hp & H)].
      - left. exact H.
      - right. exists p. split; assumption. }
    split.
    { destruct (if_truthy_url (Detail.backdrop_path CastT movie)
                  "https://image.tmdb.org/t/p/original") as [H|(p & _ & Hp & H)].
      - left. exact H.
      - right. exists p. split; assumption. }
    split.
    + intros p Hp. apply in_map_iff in Hp. destruct Hp as (ott & <- & _). reflexivity.
    + exists data. split; [reflexivity|]. rewrite map_map. reflexivity.
  - intros e He. unfold Detail.getMovieDetail. rewrite He. reflexivity.
Qed.

(** * Further scenarios, evaluated *)

Lemma toggleGenre_membership_witness :
  In "Action" (Filters.genres (filters (toggleGenre "Action" stateXY))) /\
  "Drama" <> "Action" /\
  ~ In "Drama" (Filters.genres (filters (toggleGenre "Action" stateXY))).
Proof.
  destruct (toggleGenre_membership "Action" "Drama" stateXY) as [Hflip Hother].
  assert (Hne : "Drama" <> "Action") by discriminate.
  split; [apply Hflip; intros []|]. split; [exact Hne|].
  intros H. apply (Hother Hne) in H. destruct H.
Defined.

Lemma toggleGenre_twice_witness :
  ~ In "Action" (Filters.genres (filters stateXY)) /\
  filters (toggleGenre "Action" (toggleGenre "Action" stateXY)) = filters stateXY.
Proof.
  assert (H : ~ In "Action" (Filters.genres (filters stateXY))) by (intros []).
  split; [exact H|].
  apply (proj1 (toggleGenre_twice "Action" stateXY) H).
Defined.

Lemma covers_stateXY : covers stateXY.
Proof.
  intros x Hx. simpl in *. tauto.
Defined.

Lemma covers_kept_witness :
  covers stateXY /\
  covers (step year2000 srvReplace (RemoveRecommendedMovie 2) stateXY).
Proof.
  split; [exact covers_stateXY|].
  apply (proj1 (covers_kept year2000 srvReplace (RemoveRecommendedMovie 2) stateXY)
           eq_refl covers_stateXY).
Defined.

Lemma filter_mutation_uncovers_witness :
  trackAMovies stateXY ++ trackBMovies stateXY <> [] /\
  excludedIds (step year2000 srvReplace (SetTime "01:00") stateXY) = [] /\
  ~ covers (step year2000 srvReplace (SetTime "01:00") stateXY).
Proof.
  assert (H : trackAMovies stateXY ++ trackBMovies stateXY <> []) by discriminate.
  split; [exact H|].
  destruct (filter_mutation_uncovers year2000 srvReplace (SetTime "01:00") stateXY
              eq_refl H) as (Hex & _ & _ & Hnot).
  split; [exact Hex | exact Hnot].
Defined.


Lemma replace_frame_witness :
  TrackB <> TrackA /\
  In 2 (ids (trackMovies TrackA stateXY)) /\
  trackMovies TrackB (fst (replaceItem year2000 srvReplace TrackA 2 stateXY))
  = trackMovies TrackB stateXY /\
  error (fst (replaceItem year2000 srvDown TrackA 2 stateXY)) = error stateXY /\
  filters (fst (replaceItem year2000 srvUnauthorized TrackA 2 stateXY)) = defaultFilters.
Proof.
  assert (H : TrackB <> TrackA) by discriminate.
  assert (Hin : In 2 (ids (trackMovies TrackA stateXY))) by (right; left; reflexivity).
  split; [exact H|]. split; [exact Hin|]. split; [|split].
  - destruct (replace_frame year2000 srvReplace TrackA TrackB 2 stateXY)
      as (_ & _ & _ & Hkeep & _).
    destruct Hkeep as (_ & _ & _ & _ & Hother).
    + intros _ e He. discriminate He.
    + exact (proj1 (Hother H)).
  - destruct (replace_frame year2000 srvDown TrackA TrackB 2 stateXY)
      as (_ & _ & Herr & _).
    exact Herr.
  - destruct (replace_frame year2000 srvUnauthorized TrackA TrackB 2 stateXY)
      as (_ & _ & _ & _ & Hreset).
    exact (proj1 (Hreset Hin sessionExpired eq_refl eq_refl)).
Defined.

Lemma replace_success_shape_witness :
  In 1 (ids (trackMovies TrackA stateTwin)) /\
  exists pre old post,
    trackMovies TrackA stateTwin = pre ++ old :: post /\
    Movie.id old = 1 /\
    ~ In 1 (ids pre) /\
    trackMovies TrackA (fst (replaceItem year2000 srvReplace TrackA 1 stateTwin))
    = pre ++ convertV2MovieToMovie year2000 (mkV2 9 "N" 60) :: withoutId 1 post.
Proof.
  assert (H : In 1 (ids (trackMovies TrackA stateTwin))) by (left; reflexivity).
  split; [exact H|].
  apply (replace_success_shape year2000 srvReplace TrackA 1 stateTwin (mkV2 9 "N" 60) H).
  reflexivity.
Defined.

Lemma replace_success_length_witness :
  In 1 (ids (trackMovies TrackA stateTwin)) /\
  List.length (trackMovies TrackA (fst (replaceItem year2000 srvReplace TrackA 1 stateTwin)))
  = 2%nat.
Proof.
  assert (H : In 1 (ids (trackMovies TrackA stateTwin))) by (left; reflexivity).
  split; [exact H|].
  assert (Hlen := replace_success_length year2000 srvReplace TrackA 1 stateTwin
                    (mkV2 9 "N" 60) H eq_refl).
  change (count_occ Z.eq_dec (ids (trackMovies TrackA stateTwin)) 1) with 2%nat in Hlen.
  change (List.length (trackMovies TrackA stateTwin)) with 3%nat in Hlen.
  apply (Nat.add_cancel_r _ _ 2). exact Hlen.
Defined.

Lemma replace_total_meets_budget_witness :
  In 2 (ids (trackMovies TrackA stateXY)) /\
  timeToMinutes (Filters.time (filters stateXY)) = Some 150 /\
  trackTotalRuntime TrackA (fst (replaceItem year2000 srvReplace TrackA 2 stateXY)) = 150.
Proof.
  assert (H : In 2 (ids (trackMovies TrackA stateXY))) by (right; left; reflexivity).
  split; [exact H|]. split; [reflexivity|].
  destruct (replace_total_meets_budget year2000 srvReplace TrackA 2 stateXY
              (mkV2 9 "N" 60) 150 H eq_refl eq_refl) as (target & Ht & _ & Hexact).
  apply Hexact. vm_compute in Ht. injection Ht as <-. reflexivity.
Defined.

Lemma loadRecommended_idempotent_witness :
  loadRecommended year2000 (srvLoad 118)
    (fst (loadRecommended year2000 (srvLoad 118) initialState))
  = loadRecommended year2000 (srvLoad 118) initialState /\
  loadRecommended year2000 srvDown (fst (loadRecommended year2000 srvDown stateXY))
  = loadRecommended year2000 srvDown stateXY /\
  filters (fst (loadRecommended year2000 srvUnauthorized stateXY)) = defaultFilters.
Proof.
  split; [|split].
  - apply (proj1 (loadRecommended_idempotent year2000 (srvLoad 118) initialState)).
    intros e He. discriminate He.
  - apply (proj1 (loadRecommended_idempotent year2000 srvDown stateXY)).
    intros e He. injection He as <-. reflexivity.
  - apply (proj2 (loadRecommended_idempotent year2000 srvUnauthorized stateXY)
             sessionExpired eq_refl eq_refl).
Defined.

Lemma loadRecommended_overwrites_witness :
  filters stateXY = filters (set_filters (filters stateXY) initialState) /\
  fst (loadRecommended year2000 (srvLoad 118) stateXY)
  = fst (loadRecommended year2000 (srvLoad 118)
           (set_filters (filters stateXY) initialState)).
Proof.
  split; [reflexivity|].
  apply (proj2 (loadRecommended_overwrites year2000 (srvLoad 118) stateXY
                  (set_filters (filters stateXY) initialState)
                  (response118 118) eq_refl eq_refl) eq_refl eq_refl).
Defined.

Lemma formatTime_formatRuntime_witness :
  split ":"%char "02:30" = ["02"; "30"] /\
  timeToMinutes "02:30" = Some 150 /\
  formatTime "02:30" = Some (formatRuntime 150) /\
  formatRuntime 150 = "2시간 30분".
Proof.
  split; [reflexivity|].
  destruct (formatTime_formatRuntime "02:30" "02" "30" [] 2 30
              eq_refl eq_refl eq_refl ltac:(lia)) as (Hmin & Hsame & _).
  split; [exact Hmin|]. split; [apply Hsame; lia | reflexivity].
Defined.

Lemma displayMovies_fill_witness :
  (List.length [movieX] <= 1 < 3)%nat /\
  nth_error (displayMovies [movieX]) 1 = Some (Placeholder (createEmptyCard 1)) /\
  List.length (displayMovies [movieX]) = 3%nat.
Proof.
  assert (H : (List.length [movieX] <= 1 < 3)%nat) by (simpl; lia).
  split; [exact H|].
  destruct (displayMovies_fill [movieX]) as (Hlen & _ & _ & Hpad).
  split; [exact (Hpad 1%nat H) | exact Hlen].
Defined.

Lemma cardProps_placeholders_witness :
  In (Shown movieX) (displayMovies [movieX]) /\
  In 1 (ids [movieX]).
Proof.
  assert (H : In (Shown movieX) (displayMovies [movieX])) by (left; reflexivity).
  split; [exact H|].
  apply (proj1 (cardProps_placeholders [] [movieX] (Shown movieX) H) 1 eq_refl).
Defined.

Lemma NoDup_ids_XY : NoDup (ids [movieX; movieY]).
Proof.
  constructor; [intros [H|[]]; discriminate|].
  constructor; [intros []|constructor].
Defined.

Lemma above_minus_200_XY : forall m, In m [movieX; movieY] -> -200 < Movie.id m.
Proof.
  intros m [<-|[<-|[]]]; reflexivity.
Defined.

Lemma displayMovies_keys_distinct_witness :
  NoDup (ids [movieX; movieY]) /\
  NoDup (map card_id (displayMovies [movieX; movieY])).
Proof.
  split; [exact NoDup_ids_XY|].
  apply (displayMovies_keys_distinct [movieX; movieY] NoDup_ids_XY above_minus_200_XY).
Defined.

Lemma carousel_next_prev_witness :
  0 <= 4 < 5 /\
  exists next prev,
    goToNext 5 4 = Some next /\ goToPrev 5 4 = Some prev /\
    goToPrev 5 next = Some 4 /\ goToNext 5 prev = Some 4.
Proof.
  assert (H : 0 <= 4 < 5) by lia.
  split; [exact H|].
  destruct (carousel_next_prev 5 4 H) as (next & prev & Hn & Hp & _ & _ & Hpn & Hnp).
  exists next, prev. repeat split; assumption.
Defined.

Lemma carousel_positions_witness :
  3 <= 5 /\ 0 <= 0 < 5 /\
  getCardPosition 0 5 4 = left_1.
Proof.
  assert (H3 : 3 <= 5) by lia. assert (Hr : 0 <= 0 < 5) by lia.
  split; [exact H3|]. split; [exact Hr|].
  destruct (carousel_positions 5 0 4 H3 Hr)
    as (prev & next & Hp & _ & _ & _ & _ & _ & Hleft & _).
  apply Hleft. injection Hp as <-. reflexivity.
Defined.

Lemma carousel_two_cards_witness :
  0 <= 0 < 2 /\ 0 <= 1 < 2 /\ 1 <> 0 /\
  getCardPosition 0 2 1 = left_1.
Proof.
  assert (Hr : 0 <= 0 < 2) by lia. assert (Hi : 0 <= 1 < 2) by lia.
  assert (Hne : 1 <> 0) by lia.
  split; [exact Hr|]. split; [exact Hi|]. split; [exact Hne|].
  apply (proj1 (carousel_two_cards 0 1 Hr) Hi Hne).
Defined.

Lemma earlier_remove_takes_out_first_witness :
  In 2 (ids (trackAMovies stateXY)) /\
  trackAMovies (fst (Earlier.removeRecommendedMovie year2000 srvNoCandidate 2 stateXY))
  = [movieX] /\
  trackATotalRuntime (fst (Earlier.removeRecommendedMovie year2000 srvNoCandidate 2 stateXY))
  = 120 /\
  trackAMovies (fst (Earlier.removeRecommendedMovie year2000 srvUnauthorized 2 stateXY))
  = [] /\
  trackATotalRuntime (fst (Earlier.removeRecommendedMovie year2000 srvUnauthorized 2 stateXY))
  = 0.
Proof.
  assert (H : In 2 (ids (trackAMovies stateXY))) by (right; left; reflexivity).
  split; [exact H|].
  assert (Hno := proj1 (earlier_remove_takes_out_first year2000 srvNoCandidate 2 stateXY) H).
  assert (Hun := proj1 (earlier_remove_takes_out_first year2000 srvUnauthorized 2 stateXY) H).
  hnf in Hno, Hun.
  destruct Hno as [Hkeep _]. destruct Hun as [_ Hreset].
  destruct Hkeep as [Ht Htot]; [intros e He; discriminate He|].
  destruct (Hreset sessionExpired eq_refl eq_refl) as [Ht' Htot'].
  split; [exact Ht|]. split; [exact Htot|]. split; [exact Ht' | exact Htot'].
Defined.

Lemma earlier_load_failure_witness :
  fst (postRecommendationsV2 (srvLoadFails (mkError None (Some 500))) (filters stateXY))
  = Rejected (mkError None (Some 500)) /\
  error (fst (Earlier.loadRecommended year2000
                (srvLoadFails (mkError None (Some 500))) stateXY))
  = Some MSG_GENERIC /\
  trackAMovies (fst (Earlier.loadRecommended year2000
                       (srvLoadFails (mkError None (Some 500))) stateXY))
  = [movieX; movieY] /\
  trackAMovies (fst (Earlier.loadRecommended year2000 srvUnauthorized stateXY)) = [].
Proof.
  split; [reflexivity|].
  destruct (earlier_load_failure year2000 (srvLoadFails (mkError None (Some 500)))
              stateXY (mkError None (Some 500)) eq_refl) as (_ & Herr & _ & Hkeep & _).
  destruct (earlier_load_failure year2000 srvUnauthorized stateXY sessionExpired eq_refl)
    as (_ & _ & _ & _ & Hreset).
  split; [exact Herr|]. split.
  - exact (proj1 (Hkeep eq_refl)).
  - exact (proj1 (Hreset eq_refl)).
Defined.

Lemma getMovieDetail_defaults_witness :
  exists d,
    Detail.getMovieDetail unit (fun _ => Resolved dataBare) 550 = Resolved d /\
    Detail.d_overview unit d <> EmptyString /\
    map Detail.ott_logo (Detail.d_ott_providers unit d) = [EmptyString; EmptyString].
Proof.
  eexists. split; [reflexivity|].
  destruct (getMovieDetail_defaults unit (fun _ => Resolved dataBare) 550) as [Hok _].
  destruct (Hok _ eq_refl) as (Hov & _).
  split; [exact Hov | reflexivity].
Defined.

(** * The two copies of the store compared *)

Lemma replacement_Some (o : outcome ReRecommendResponse) (v2 : V2.t) :
  replacement o = Some v2 ->
  exists r, o = Resolved r /\ success r = true /\ movie r = Some v2.
Proof.
  destruct o as [r|e]; simpl; [|discriminate].
  destruct (success r) eqn:E; [|discriminate].
  intros H. exists r. repeat split; assumption.
Qed.

Lemma last_item_split (movieId : Z) (l : list Movie.t) :
  l <> [] ->
  only_at movieId (List.length l - 1) l ->
  exists pre old,
    l = pre ++ [old] /\ Movie.id old = movieId /\ withoutId movieId l = pre /\
    findIndex (fun m => Movie.id m =? movieId) l = Z.of_nat (List.length pre).
Proof.
  intros Hne Honly.
  destruct (only_at_split _ _ _ Honly) as (pre & old & post & -> & Hlen & Hid & Hpre & Hpost).
  rewrite length_app in Hlen. simpl in Hlen.
  assert (post = []) by (destruct post; [reflexivity | simpl in Hlen; lia]).
  subst post. exists pre, old. repeat split; try assumption.
  - rewrite withoutId_app, (withoutId_all _ pre Hpre). unfold withoutId. simpl.
    assert (H : (Movie.id old =? movieId) = true) by (apply Z.eqb_eq; exact Hid).
    rewrite H. simpl. apply app_nil_r.
  - unfold findIndex. rewrite findIndex_from_split; [lia | exact Hpre |].
    apply Z.eqb_eq. exact Hid.
Qed.

(** When the id is carried by the last item of the track and by no other,
    and the call delivers a replacement, the earlier copy of the store and
    the one with index-preserving replacement end in the same state. *)
Theorem copies_agree_on_last_item
    (getFullYear : string -> Z) (srv : Backend) (movieId : Z) (s : MovieState) (v2 : V2.t) :
  (trackAMovies s <> [] ->
   only_at movieId (List.length (trackAMovies s) - 1) (trackAMovies s) ->
   replacement (recommend_single srv (request_for "a" (trackAMovies s) movieId s)) = Some v2 ->
   fst (Earlier.removeRecommendedMovie getFullYear srv movieId s)
   = fst (removeRecommendedMovie getFullYear srv movieId s)) /\
  (trackBMovies s <> [] ->
   only_at movieId (List.length (trackBMovies s) - 1) (trackBMovies s) ->
   replacement (recommend_single srv (request_for "b" (trackBMovies s) movieId s)) = Some v2 ->
   fst (Earlier.removePopularMovie getFullYear srv movieId s)
   = fst (removePopularMovie getFullYear srv movieId s)).
Proof.
  split; intros Hne Honly Hrep.
  - assert (Hin := only_at_In _ _ _ Honly).
    destruct (last_item_split _ _ Hne Honly) as (pre & old & Hl & Hid & Hcut & Hidx).
    rewrite (removeRecommendedMovie_present getFullYear srv movieId s Hin), Hrep.
    destruct (replacement_Some _ _ Hrep) as (r & Hr & Hsucc & Hmovie).
    destruct (find_present _ _ Hin) as [m Hm].
    unfold Earlier.removeRecommendedMovie. rewrite Hm.
    unfold postReRecommendSingle. unfold request_for in Hr. rewrite Hr, Hsucc, Hmovie.
    unfold removeRecommendedMovie_commit. cbn [fst]. rewrite Hidx, Hcut.
    assert (Hs := splice_insert_at_length pre [] (convertV2MovieToMovie getFullYear v2)).
    rewrite app_nil_r in Hs. rewrite Hs.
    destruct s. reflexivity.
  - assert (Hin := only_at_In _ _ _ Honly).
    destruct (last_item_split _ _ Hne Honly) as (pre & old & Hl & Hid & Hcut & Hidx).
    rewrite (removePopularMovie_present getFullYear srv movieId s Hin), Hrep.
    destruct (replacement_Some _ _ Hrep) as (r & Hr & Hsucc & Hmovie).
    destruct (find_present _ _ Hin) as [m Hm].
    unfold Earlier.removePopularMovie. rewrite Hm.
    unfold postReRecommendSingle. unfold request_for in Hr. rewrite Hr, Hsucc, Hmovie.
    unfold removePopularMovie_commit. cbn [fst]. rewrite Hidx, Hcut.
    assert (Hs := splice_insert_at_length pre [] (convertV2MovieToMovie getFullYear v2)).
    rewrite app_nil_r in Hs. rewrite Hs.
    destruct s. reflexivity.
Qed.

Lemma copies_agree_on_last_item_witness :
  trackAMovies stateXY <> [] /\
  fst (Earlier.removeRecommendedMovie year2000 srvReplace 2 stateXY)
  = fst (removeRecommendedMovie year2000 srvReplace 2 stateXY).
Proof.
  assert (H : trackAMovies stateXY <> []) by discriminate.
  split; [exact H|].
  apply (proj1 (copies_agree_on_last_item year2000 srvReplace 2 stateXY (mkV2 9 "N" 60))
           H only_at_stateXY eq_refl).
Defined.
